(** * RDA Carrier Reference Agent: relay server and chat client

    A shallow embedding of [server.js] (the Express relay in front of the
    text-generation API) and of [frontend-html/script.js] (the browser chat
    widget), with the properties of the request/response contract, of the
    error taxonomy and of the client state machine.

    JavaScript values are embedded as an inductive type, strings as lists of
    UTF-16 code units (so that [length] is the [.length] of the source and
    [trim] is [String.prototype.trim]), numbers as binary64 floats.
    Handlers that [await] are split at the suspension point into the part
    run before it and the part run when the awaited call settles. *)

From Stdlib Require Import ZArith List Bool String Ascii DecimalString Lia Floats.
Import ListNotations.

Set Warnings "-register-all".

Local Open Scope string_scope.
Local Open Scope list_scope.
Local Open Scope Z_scope.

(* ================================================================== *)
(** ** JavaScript values                                              *)
(* ================================================================== *)

Module JS.

(** A JavaScript string: its sequence of UTF-16 code units. *)
Definition js_string := list N.

(** A string literal of the source (all of them are ASCII). *)
Definition lit (s : string) : js_string :=
  map N_of_ascii (list_ascii_of_string s).

(** [s.length] *)
Definition strlen (s : js_string) : Z := Z.of_nat (List.length s).

Inductive value : Type :=
| VUndefined
| VNull
| VBool (b : bool)
| VNumber (f : float)
| VString (s : js_string)
| VArray (items : list value)
| VObject (fields : list (string * value)).

(** An object literal, as an ordered list of its properties. *)
Definition object := list (string * value).

(** ToBoolean: [undefined], [null], [false], [+0], [-0], [NaN] and the
    empty string are falsy, everything else is truthy. *)
Definition truthy (v : value) : bool :=
  match v with
  | VUndefined | VNull => false
  | VBool b => b
  | VNumber f => negb (PrimFloat.eqb f PrimFloat.zero || PrimFloat.is_nan f)
  | VString s => negb (strlen s =? 0)
  | VArray _ | VObject _ => true
  end.

(** [a || b] *)
Definition or_else (a b : value) : value := if truthy a then a else b.

(** [typeof v === 'string'] *)
Definition is_string (v : value) : bool :=
  match v with VString _ => true | _ => false end.

Fixpoint str_eqb (a b : js_string) : bool :=
  match a, b with
  | [], [] => true
  | x :: a', y :: b' => (x =? y)%N && str_eqb a' b'
  | _, _ => false
  end.

(** [v === 'literal'] : strict equality with a string. *)
Definition strict_eq_lit (v : value) (s : string) : bool :=
  match v with VString x => str_eqb x (lit s) | _ => false end.

(** Property read [o.k] on an object literal; [None] when [k] is not an
    own property. *)
Fixpoint get (k : string) (o : object) : option value :=
  match o with
  | [] => None
  | (k', v) :: o' => if String.eqb k k' then Some v else get k o'
  end.

(** ECMAScript WhiteSpace and LineTerminator code points, the characters
    [String.prototype.trim] strips. All of them are in the Basic
    Multilingual Plane, so each is exactly one code unit. *)
Definition is_white_space (c : N) : bool :=
  ((c =? 9) || (c =? 10) || (c =? 11) || (c =? 12) || (c =? 13) ||
   (c =? 32) || (c =? 160) || (c =? 5760) ||
   ((8192 <=? c) && (c <=? 8202)) ||
   (c =? 8232) || (c =? 8233) || (c =? 8239) || (c =? 8287) ||
   (c =? 12288) || (c =? 65279))%N.

Fixpoint trimStart (s : js_string) : js_string :=
  match s with
  | [] => []
  | c :: s' => if is_white_space c then trimStart s' else s
  end.

Definition trimEnd (s : js_string) : js_string := rev (trimStart (rev s)).

(** [s.trim()] *)
Definition trim (s : js_string) : js_string := trimEnd (trimStart s).

(** ToString, as a template literal applies it to a value parsed from
    JSON. It throws a [TypeError] for an object exactly when the object has
    an own property named [toString]: that property is not callable, and
    the inherited [valueOf] returns the object itself, which is no
    primitive. An array joins the strings of its elements ([null] counting
    as the empty string), so it throws when one of them does. Everything
    else has a string. *)
Fixpoint to_string_throws (v : value) : bool :=
  match v with
  | VObject fields =>
      existsb (fun kv => String.eqb (fst kv) "toString") fields
  | VArray items => existsb to_string_throws items
  | _ => false
  end.

(** A number as [JSON.stringify] writes it and the receiver reads it back:
    [null] for NaN and the infinities, [0] for negative zero, the number
    itself otherwise. *)
Definition json_number (f : float) : value :=
  match PrimFloat.classify f with
  | NaN | PInf | NInf => VNull
  | NZero => VNumber PrimFloat.zero
  | _ => VNumber f
  end.

(** A value as [JSON.stringify] writes it and the receiver reads it back:
    a property whose value is [undefined] is left out, [undefined] in an
    array becomes [null], numbers go through [json_number]. *)
Fixpoint json_value (v : value) : value :=
  match v with
  | VUndefined => VNull
  | VNumber f => json_number f
  | VArray items => VArray (map json_value items)
  | VObject fields =>
      VObject
        ((fix props (l : list (string * value)) : list (string * value) :=
            match l with
            | [] => []
            | (k, VUndefined) :: l' => props l'
            | (k, x) :: l' => (k, json_value x) :: props l'
            end) fields)
  | _ => v
  end.

Definition json_object (o : object) : object :=
  match json_value (VObject o) with
  | VObject o' => o'
  | _ => []
  end.

(** A finite number that is zero or positive. *)
Definition nonneg_finite (f : float) : bool :=
  match PrimFloat.classify f with
  | PNormal | PSubn | PZero => true
  | _ => false
  end.

End JS.

Import JS.

(* ================================================================== *)
(** ** The relay server ([server.js])                                 *)
(* ================================================================== *)

Module Server.

(** What the process reads from its surroundings while it serves one
    request. The [openai] package is not among the sources: whether its
    constructor returns or throws for a key is taken from the surroundings.
    [process.uptime()] is a number of seconds, finite and not negative. *)
Record Env := {
  OPENAI_API_KEY : option js_string;   (* process.env.OPENAI_API_KEY *)
  NODE_ENV       : option js_string;   (* process.env.NODE_ENV *)
  now            : js_string;          (* new Date().toISOString() *)
  uptime         : float;              (* process.uptime() *)
  new_OpenAI     : js_string -> bool;  (* new OpenAI({ apiKey }) returns *)
  uptime_range   : nonneg_finite uptime = true
}.

(** [process.env.X] as a value: a string, or [undefined] when unset. *)
Definition env_value (x : option js_string) : value :=
  match x with Some s => VString s | None => VUndefined end.

(** The module-level [openai] client (lines 33-45): created at start-up
    when the key is set to a truthy value and the constructor returns;
    left [undefined] when the key is missing or the constructor throws into
    the [catch]. *)
Definition openai (env : Env) : bool :=
  match OPENAI_API_KEY env with
  | Some key => truthy (VString key) && new_OpenAI env key
  | None => false
  end.

(** An [Error] object as the [catch] block reads it. *)
Record JsError := {
  err_code    : value;       (* error.code *)
  err_message : js_string    (* error.message *)
}.

(** Lines 93-107: the awaited [openai.chat.completions.create] call
    together with the read of [completion.choices[0].message.content].
    Either a reply text is obtained, or an error is thrown into the
    [catch] block (a rejected call, or a [TypeError] on a completion that
    has no textual first choice). *)
Inductive Downstream :=
| Reply (reply : js_string)
| Throws (e : JsError).

(** The parsed request body after [const { message, sessionId } = req.body];
    a missing property is [VUndefined]. *)
Record Request := {
  message   : value;
  sessionId : value
}.

Record Response := {
  status : Z;
  body   : object
}.

(** [res.status(code).json(obj)]: the body is [obj] as [JSON.stringify]
    writes it. *)
Definition json (code : Z) (obj : object) : Response :=
  {| status := code; body := json_object obj |}.

(** The [TypeError] a template literal throws for a value that has no
    string (the message is the one of V8, the engine of Node.js). *)
Definition cannot_convert : JsError :=
  {| err_code := VUndefined;
     err_message := lit "Cannot convert object to primitive value" |}.

(** [message.trim().length] and [message.length] for a value already
    known to be a string. *)
Definition text_of (v : value) : js_string :=
  match v with VString s => s | _ => [] end.

(** The [catch] block of the chat handler. *)
Definition chat_catch (env : Env) (error : JsError) : Response :=
  if strict_eq_lit (err_code error) "insufficient_quota" then
    json 429 [("error", VString (lit "API quota exceeded. Please add credits to your OpenAI account."));
              ("code", VString (lit "quota_exceeded"))]
  else if strict_eq_lit (err_code error) "invalid_api_key" then
    json 401 [("error", VString (lit "Invalid OpenAI API key. Please check your configuration."));
              ("code", VString (lit "invalid_key"))]
  else if strict_eq_lit (err_code error) "rate_limit_exceeded" then
    json 429 [("error", VString (lit "Rate limit exceeded. Please try again in a moment."));
              ("code", VString (lit "rate_limit"))]
  else if strict_eq_lit (err_code error) "context_length_exceeded" then
    json 400 [("error", VString (lit "Message too long for the model. Please shorten your message."));
              ("code", VString (lit "context_length"))]
  else
    json 500 [("error", VString (lit "An unexpected error occurred. Please try again."));
              ("code", VString (lit "server_error"));
              ("details",
                if strict_eq_lit (env_value (NODE_ENV env)) "development"
                then VString (err_message error) else VUndefined)].

(** [app.post('/api/chat', ...)]. [create] is the downstream endpoint,
    called with the trimmed user message. Everything from line 89 on runs
    inside the [try], so what is thrown there ends in [chat_catch]. *)
Definition chat (env : Env) (create : js_string -> Downstream)
           (req : Request) : Response :=
  let message := message req in
  if negb (truthy message) || negb (is_string message)
     || (strlen (trim (text_of message)) =? 0) then
    json 400 [("error", VString (lit "Message is required and must be a non-empty string"))]
  else if strlen (text_of message) >? 4000 then
    json 400 [("error", VString (lit "Message too long. Please limit to 4000 characters."))]
  else if negb (openai env) then
    json 500 [("error", VString (lit "OpenAI API is not configured. Please check your API key."))]
  else
    let userSessionId := or_else (sessionId req) (VString (lit "anonymous")) in
    (* line 90: the log line writes userSessionId into a template literal *)
    if to_string_throws userSessionId then chat_catch env cannot_convert
    else
      match create (trim (text_of message)) with
      | Reply reply =>
          json 200 [("reply", VString reply);
                    ("sources", VArray []);
                    ("sessionId", userSessionId);
                    ("timestamp", VString (now env))]
      | Throws error => chat_catch env error
      end.

(** [app.get('/api/health', ...)] *)
Definition health (env : Env) : Response :=
  json 200 [("status", VString (lit "healthy"));
            ("timestamp", VString (now env));
            ("uptime", VNumber (uptime env));
            ("environment", or_else (env_value (NODE_ENV env))
                                    (VString (lit "development")));
            ("openai_configured",
              VBool (negb (negb (truthy (env_value (OPENAI_API_KEY env))))));
            ("version", VString (lit "1.0.0"))].

(** The error taxonomy of the specification with the HTTP status of each
    code. *)
Definition taxonomy : list (string * Z) :=
  [("validation", 400); ("quota_exceeded", 429); ("invalid_key", 401);
   ("rate_limit", 429); ("context_length", 400); ("timeout", 408);
   ("server_error", 500)].

(** A response carries a code of the taxonomy, with that code's status. *)
Definition coded_by_taxonomy (r : Response) : Prop :=
  exists c, get "code" (body r) = Some (VString (lit c))
            /\ In (c, status r) taxonomy.

Definition empty_message_error : object :=
  [("error", VString (lit "Message is required and must be a non-empty string"))].

Definition too_long_error : object :=
  [("error", VString (lit "Message too long. Please limit to 4000 characters."))].

Definition not_configured_error : object :=
  [("error", VString (lit "OpenAI API is not configured. Please check your API key."))].

(** The body of a successful chat response. *)
Definition chat_reply (env : Env) (reply : js_string) (session : value)
  : object :=
  [("reply", VString reply); ("sources", VArray []);
   ("sessionId", session); ("timestamp", VString (now env))].

Definition anonymous : value := VString (lit "anonymous").


(** *** Concrete requests and surroundings *)

(** A process with the credential set, and one without it. *)
Definition env_configured : Env :=
  {| OPENAI_API_KEY := Some (lit "sk-test"); NODE_ENV := None;
     now := lit "2024-01-01T00:00:00.000Z"; uptime := 1.5%float;
     new_OpenAI := fun _ => true; uptime_range := eq_refl |}.

Definition env_unconfigured : Env :=
  {| OPENAI_API_KEY := None; NODE_ENV := None;
     now := lit "2024-01-01T00:00:00.000Z"; uptime := 1.5%float;
     new_OpenAI := fun _ => true; uptime_range := eq_refl |}.

(** A downstream endpoint that always answers. *)
Definition always_replies : js_string -> Downstream :=
  fun _ => Reply (lit "Here are the current data plans.").

(** 4000 letters, and the same with one space in front: the second has
    raw length 4001 and trimmed length 4000. *)
Definition letters_4000 : js_string := repeat 97%N 4000.
Definition padded_4000 : js_string := 32%N :: letters_4000.
Definition letters_4001 : js_string := repeat 97%N 4001.

Definition question : js_string :=
  lit "What are the current data plans for Karachi?".

End Server.

(* ================================================================== *)
(** ** The chat client ([frontend-html/script.js])                    *)
(* ================================================================== *)

Module Client.

(** [CONFIG] *)
Definition MAX_MESSAGE_LENGTH : Z := 4000.
Definition RETRY_ATTEMPTS : Z := 3.

Inductive Role := user | assistant | error.

(** An entry of [state.messages]. *)
Record ChatMessage := {
  role      : Role;
  content   : js_string;
  timestamp : js_string;
  sources   : list js_string
}.

(** A child of [elements.messagesContainer]: the welcome message, or an
    element [addMessage] made. Such an element has the class of its role;
    the markup assigned to its [innerHTML] is [markup] followed by a [div]
    with the local time of the instant [shown_at]
    ([toLocaleTimeString], which depends on the browser's locale and is
    not spelled out). What the parser of the browser makes of the markup
    is not modelled. *)
Inductive Node :=
| WelcomeMessage
| MessageElement (r : Role) (markup : js_string) (shown_at : js_string).

(** [escapeHtml]: the text is stored in a text node
    ([div.textContent = text]) and read back as markup ([div.innerHTML]).
    Serialising a text node replaces [&], the no-break space, [<] and [>]
    by their entities and leaves every other code unit as it is. *)
Definition escape_unit (c : N) : js_string :=
  if (c =? 38)%N then lit "&amp;"
  else if (c =? 160)%N then lit "&nbsp;"
  else if (c =? 60)%N then lit "&lt;"
  else if (c =? 62)%N then lit "&gt;"
  else [c].

Definition escapeHtml (text : js_string) : js_string :=
  flat_map escape_unit text.

(** [items.join(sep)] *)
Fixpoint join (sep : js_string) (items : list js_string) : js_string :=
  match items with
  | [] => []
  | x :: rest =>
      match rest with
      | [] => x
      | _ :: _ => x ++ sep ++ join sep rest
      end
  end.

(** [messageHTML] of [addMessage] before the time stamp is added: the
    escaped text in a [div], then the sources, joined and not escaped, in
    a second [div] when there are any. *)
Definition messageHTML (text : js_string) (srcs : list js_string)
  : js_string :=
  lit "<div>" ++ escapeHtml text ++ lit "</div>"
  ++ match srcs with
     | [] => []
     | _ :: _ =>
         lit "<div class=" ++ [34%N] ++ lit "message-timestamp" ++ [34%N]
         ++ lit ">Sources: " ++ join (lit ", ") srcs ++ lit "</div>"
     end.

(** [elements.connectionStatus] / [elements.statusText]: as in the markup
    until the first update, then online or offline. *)
Inductive Indicator := StatusInitial | StatusOnline | StatusOffline.

(** The module-level [state] object, the parts of the page the handlers
    read or write, and the tasks waiting in the event loop. The character
    counter, scrolling, focus and the textarea height are left out: no
    handler reads them back. *)
Record State := mkState {
  (* const state *)
  messages   : list ChatMessage;
  isLoading  : bool;
  sessionId  : js_string;
  retryCount : Z;
  (* const elements *)
  messagesContainer      : list Node;
  messageInput           : js_string;   (* messageInput.value *)
  sendButton_disabled    : bool;
  typingIndicator_hidden : bool;
  errorDisplay_hidden    : bool;
  errorMessage           : js_string;   (* errorMessage.textContent *)
  connectionStatus       : Indicator;
  (* event loop *)
  inflight : list js_string;  (* message of each sendToAPI call awaited *)
  timers   : list js_string   (* originalMessage of each retry prompt
                                 waiting for RETRY_DELAY *)
}.

Definition set_messages v st :=
  mkState v (isLoading st) (sessionId st) (retryCount st) (messagesContainer st)
    (messageInput st) (sendButton_disabled st) (typingIndicator_hidden st)
    (errorDisplay_hidden st) (errorMessage st) (connectionStatus st)
    (inflight st) (timers st).
Definition set_isLoading v st :=
  mkState (messages st) v (sessionId st) (retryCount st) (messagesContainer st)
    (messageInput st) (sendButton_disabled st) (typingIndicator_hidden st)
    (errorDisplay_hidden st) (errorMessage st) (connectionStatus st)
    (inflight st) (timers st).
Definition set_retryCount v st :=
  mkState (messages st) (isLoading st) (sessionId st) v (messagesContainer st)
    (messageInput st) (sendButton_disabled st) (typingIndicator_hidden st)
    (errorDisplay_hidden st) (errorMessage st) (connectionStatus st)
    (inflight st) (timers st).
Definition set_messagesContainer v st :=
  mkState (messages st) (isLoading st) (sessionId st) (retryCount st) v
    (messageInput st) (sendButton_disabled st) (typingIndicator_hidden st)
    (errorDisplay_hidden st) (errorMessage st) (connectionStatus st)
    (inflight st) (timers st).
Definition set_messageInput v st :=
  mkState (messages st) (isLoading st) (sessionId st) (retryCount st)
    (messagesContainer st) v (sendButton_disabled st) (typingIndicator_hidden st)
    (errorDisplay_hidden st) (errorMessage st) (connectionStatus st)
    (inflight st) (timers st).
Definition set_sendButton_disabled v st :=
  mkState (messages st) (isLoading st) (sessionId st) (retryCount st)
    (messagesContainer st) (messageInput st) v (typingIndicator_hidden st)
    (errorDisplay_hidden st) (errorMessage st) (connectionStatus st)
    (inflight st) (timers st).
Definition set_typingIndicator_hidden v st :=
  mkState (messages st) (isLoading st) (sessionId st) (retryCount st)
    (messagesContainer st) (messageInput st) (sendButton_disabled st) v
    (errorDisplay_hidden st) (errorMessage st) (connectionStatus st)
    (inflight st) (timers st).
Definition set_errorDisplay_hidden v st :=
  mkState (messages st) (isLoading st) (sessionId st) (retryCount st)
    (messagesContainer st) (messageInput st) (sendButton_disabled st)
    (typingIndicator_hidden st) v (errorMessage st) (connectionStatus st)
    (inflight st) (timers st).
Definition set_errorMessage v st :=
  mkState (messages st) (isLoading st) (sessionId st) (retryCount st)
    (messagesContainer st) (messageInput st) (sendButton_disabled st)
    (typingIndicator_hidden st) (errorDisplay_hidden st) v (connectionStatus st)
    (inflight st) (timers st).
Definition set_connectionStatus v st :=
  mkState (messages st) (isLoading st) (sessionId st) (retryCount st)
    (messagesContainer st) (messageInput st) (sendButton_disabled st)
    (typingIndicator_hidden st) (errorDisplay_hidden st) (errorMessage st) v
    (inflight st) (timers st).
Definition set_inflight v st :=
  mkState (messages st) (isLoading st) (sessionId st) (retryCount st)
    (messagesContainer st) (messageInput st) (sendButton_disabled st)
    (typingIndicator_hidden st) (errorDisplay_hidden st) (errorMessage st)
    (connectionStatus st) v (timers st).
Definition set_timers v st :=
  mkState (messages st) (isLoading st) (sessionId st) (retryCount st)
    (messagesContainer st) (messageInput st) (sendButton_disabled st)
    (typingIndicator_hidden st) (errorDisplay_hidden st) (errorMessage st)
    (connectionStatus st) (inflight st) v.

(** A [confirm(...)] dialog put before the user. The retry dialog shows
    [state.retryCount] as it is when the timer fires; [originalMessage] is
    the message its closure holds. *)
Inductive Dialog :=
| ConfirmRetry (attempt : Z) (originalMessage : js_string)
| ConfirmClear.

(** *** Handlers *)

Definition handleInputChange (st : State) : State :=
  let value := messageInput st in
  let canSend := (strlen (trim value) >? 0)
                 && (strlen value <=? MAX_MESSAGE_LENGTH)
                 && negb (isLoading st) in
  set_sendButton_disabled (negb canSend) st.

(** [querySelector('.welcome-message')] followed by [remove()]: the first
    welcome node, when there is one. The markup of the message elements is
    taken to hold no element of that class (the relay sends no sources,
    and the text is escaped). *)
Fixpoint remove_welcome (c : list Node) : list Node :=
  match c with
  | [] => []
  | WelcomeMessage :: c' => c'
  | n :: c' => n :: remove_welcome c'
  end.

Definition addMessage (now : js_string) (r : Role) (text : js_string)
           (srcs : list js_string) (st : State) : State :=
  let st := set_messagesContainer
              (remove_welcome (messagesContainer st)
               ++ [MessageElement r (messageHTML text srcs) now]) st in
  set_messages (messages st ++ [{| role := r; content := text;
                                   timestamp := now; sources := srcs |}]) st.

Definition showTypingIndicator := set_typingIndicator_hidden false.
Definition hideTypingIndicator := set_typingIndicator_hidden true.

Definition showError (text : js_string) (st : State) : State :=
  set_errorDisplay_hidden false (set_errorMessage text st).
Definition hideError := set_errorDisplay_hidden true.

Definition updateConnectionStatus (isOnline : bool) : State -> State :=
  set_connectionStatus (if isOnline then StatusOnline else StatusOffline).

(** What [handleSendMessage]'s [try] block can end with: the parsed body
    of a 200 response, or a thrown error. *)
Record ChatReply := {
  reply         : js_string;
  reply_sources : list js_string
}.

Inductive Thrown :=
| APIError (status : Z) (message : js_string) (code : value)
| OtherError.

Inductive Settled :=
| Returned (r : ChatReply)
| Threw (e : Thrown).

(** How the [fetch] of [sendToAPI] ends. Bodies are taken to have the
    shape the relay sends: a reply with its sources on success, an
    optional [error] text and any [code] on failure. *)
Inductive Fetch :=
| FetchAborted                          (* the 30 s timer aborted it *)
| FetchFailed                           (* fetch rejected: no connection *)
| HttpOk (parsed : option ChatReply)    (* response.ok; None: not JSON *)
| HttpError (status : Z) (error : option js_string) (code : value).

Definition network_error : Thrown :=
  APIError 0 (lit "Cannot connect to server. Please check if the backend is running.")
           (VString (lit "network")).

(** [sendToAPI], from the point where the [fetch] settles. *)
Definition sendToAPI (f : Fetch) : Settled :=
  match f with
  | FetchAborted =>
      Threw (APIError 408 (lit "Request timed out. Please try again.")
                      (VString (lit "timeout")))
  | FetchFailed => Threw network_error
  | HttpOk (Some r) => Returned r
  | HttpOk None => Threw network_error
  | HttpError status err code =>
      let http := lit (String.append "HTTP " (NilEmpty.string_of_int (Z.to_int status))) in
      Threw (APIError status
               (match err with
                | Some e => if strlen e =? 0 then http else e
                | None => http
                end) code)
  end.

(** The [switch] of [handleAPIError]: the text shown, [canRetry], and
    whether the branch calls [updateConnectionStatus(false)]. *)
Definition classify (e : Thrown) : js_string * bool * bool :=
  let errorMessage := lit "Sorry, something went wrong. Please try again." in
  match e with
  | APIError status message code =>
      if strict_eq_lit code "timeout" then
        (lit "Request timed out. Please try again.", true, false)
      else if strict_eq_lit code "network" then
        (lit "Cannot connect to server. Please check if the backend is running.",
         false, true)
      else if strict_eq_lit code "quota_exceeded" then
        (lit "API quota exceeded. Please add credits to your OpenAI account.",
         false, false)
      else if strict_eq_lit code "invalid_key" then
        (lit "Authentication error. Please check the API configuration.",
         false, false)
      else if strict_eq_lit code "rate_limit" then
        (lit "Rate limit exceeded. Please wait a moment and try again.",
         true, false)
      else if strict_eq_lit code "context_length" then
        (lit "Message too long for the model. Please shorten your message.",
         false, false)
      else
        (if strlen message =? 0 then errorMessage else message,
         status >=? 500, false)
  | OtherError => (errorMessage, true, false)
  end.

Definition canRetry (e : Thrown) : bool := snd (fst (classify e)).

Definition handleAPIError (now : js_string) (e : Thrown)
           (originalMessage : js_string) (st : State) : State :=
  let '(errorMessage, canRetry, offline) := classify e in
  let st := if offline then updateConnectionStatus false st else st in
  let st := addMessage now error errorMessage [] st in
  let st := showError errorMessage st in
  if canRetry && (retryCount st <? RETRY_ATTEMPTS) then
    set_timers (timers st ++ [originalMessage])
               (set_retryCount (retryCount st + 1) st)
  else st.

(** [handleSendMessage] up to its [await]. *)
Definition handleSendMessage (now : js_string) (st : State) : State :=
  let message := trim (messageInput st) in
  if (strlen message =? 0) || isLoading st then st
  else
    let st := addMessage now user message [] st in
    let st := set_messageInput [] st in
    let st := handleInputChange st in
    let st := showTypingIndicator st in
    let st := hideError st in
    let st := set_isLoading true st in
    set_inflight (inflight st ++ [message]) st.

(** [handleSendMessage] from its [await] on, once the call settles:
    the rest of the [try] block or the [catch] block, then [finally]. *)
Definition handleSendMessage_settled (now : js_string) (s : Settled)
           (st : State) : State :=
  match inflight st with
  | [] => st
  | message :: rest =>
      let st := set_inflight rest st in
      let st :=
        match s with
        | Returned response =>
            let st := hideTypingIndicator st in
            let st := addMessage now assistant (reply response)
                                 (reply_sources response) st in
            set_retryCount 0 st
        | Threw e =>
            let st := hideTypingIndicator st in
            handleAPIError now e message st
        end in
      handleInputChange (set_isLoading false st)
  end.

(** The callback [handleAPIError] gave to [setTimeout]. *)
Definition retryPrompt (now : js_string) (answer : bool) (st : State)
  : State * list Dialog :=
  match timers st with
  | [] => (st, [])
  | originalMessage :: rest =>
      let st := set_timers rest st in
      let shown := [ConfirmRetry (retryCount st) originalMessage] in
      if answer then
        let st := set_messageInput originalMessage st in
        let st := handleInputChange st in
        (handleSendMessage now st, shown)
      else (st, shown)
  end.

Definition handleClearChat (answer : bool) (st : State)
  : State * list Dialog :=
  if Z.of_nat (List.length (messages st)) =? 0 then (st, [])
  else if answer then
    let st := set_messagesContainer [WelcomeMessage] st in
    let st := set_messages [] st in
    (hideError st, [ConfirmClear])
  else (st, [ConfirmClear]).

(** How the [fetch] of [checkBackendHealth] ends. *)
Inductive HealthFetch :=
| HealthFailed
| HealthResponded (ok : bool).

(** [checkBackendHealth], from the point where its [fetch] settles. *)
Definition checkBackendHealth (h : HealthFetch) : State -> State :=
  match h with
  | HealthResponded true => updateConnectionStatus true
  | HealthResponded false => updateConnectionStatus false
  | HealthFailed => updateConnectionStatus false
  end.

(** The [offline] listener of [window]. *)
Definition handleOffline (st : State) : State :=
  showError (lit "You are offline. Please check your internet connection.")
            (updateConnectionStatus false st).

(** *** The event loop

    One task of the page at a time: a user action, a settled request or a
    timer. An event that has nothing to act on (no call in flight, no
    timer pending, a click on the disabled button) leaves the page as it
    is. *)
Inductive Event :=
| Input (value : js_string)   (* typing, pasting, picking an example query *)
| ClickSend
| KeyEnter                    (* Enter without Shift in the textarea *)
| ChatSettled (s : Settled)   (* the awaited sendToAPI call settles *)
| RetryTimer (answer : bool)  (* a retry timer fires; the user answers *)
| ClickClear (answer : bool)
| DismissError
| HealthSettled (h : HealthFetch)
| Offline.

Definition step (now : js_string) (ev : Event) (st : State)
  : State * list Dialog :=
  match ev with
  | Input value => (handleInputChange (set_messageInput value st), [])
  | ClickSend | KeyEnter =>
      if sendButton_disabled st then (st, [])
      else (handleSendMessage now st, [])
  | ChatSettled s => (handleSendMessage_settled now s st, [])
  | RetryTimer answer => retryPrompt now answer st
  | ClickClear answer => handleClearChat answer st
  | DismissError => (hideError st, [])
  | HealthSettled h => (checkBackendHealth h st, [])
  | Offline => (handleOffline st, [])
  end.

(** A run of the page: the events in order, each with the time it happens
    at; the final page and every dialog shown on the way. *)
Fixpoint run (trace : list (js_string * Event)) (st : State)
  : State * list Dialog :=
  match trace with
  | [] => (st, [])
  | (now, ev) :: rest =>
      let '(st1, shown1) := step now ev st in
      let '(st2, shown2) := run rest st1 in
      (st2, shown1 ++ shown2)
  end.

(** Modelled from the spec: the markup of the page ([index.html]) is not
    among the sources. The page when the script starts: [state] as
    script.js declares it (lines 11-16, an empty transcript, not loading,
    retry counter 0), nothing pending, and the elements as the markup is
    taken to hold them: the welcome message that [handleClearChat]
    restores, an empty textarea, the send button disabled, the typing
    indicator and the error banner hidden. *)
Definition page_load (session : js_string) : State :=
  {| messages := []; isLoading := false; sessionId := session;
     retryCount := 0;
     messagesContainer := [WelcomeMessage]; messageInput := [];
     sendButton_disabled := true; typingIndicator_hidden := true;
     errorDisplay_hidden := true; errorMessage := [];
     connectionStatus := StatusInitial;
     inflight := []; timers := [] |}.

(** The retry dialogs among [shown] that ask to resend [m]. *)
Fixpoint retry_prompts_for (m : js_string) (shown : list Dialog) : Z :=
  match shown with
  | [] => 0
  | ConfirmRetry _ m' :: rest =>
      (if str_eqb m m' then 1 else 0) + retry_prompts_for m rest
  | ConfirmClear :: rest => retry_prompts_for m rest
  end.

(** All the retry dialogs among [shown]. *)
Fixpoint retry_prompts (shown : list Dialog) : Z :=
  match shown with
  | [] => 0
  | ConfirmRetry _ _ :: rest => 1 + retry_prompts rest
  | ConfirmClear :: rest => retry_prompts rest
  end.

(** No request of the trace ends in a successful response. *)
Fixpoint no_success (trace : list (js_string * Event)) : bool :=
  match trace with
  | [] => true
  | (_, ChatSettled (Returned _)) :: _ => false
  | _ :: rest => no_success rest
  end.

(** How often the user enters [m] into the textarea in a trace. *)
Fixpoint typed (m : js_string) (trace : list (js_string * Event)) : Z :=
  match trace with
  | [] => 0
  | (_, Input v) :: rest => (if str_eqb (trim v) m then 1 else 0) + typed m rest
  | _ :: rest => typed m rest
  end.

(** Number of retry timers waiting to fire. *)
Definition pending (st : State) : Z := Z.of_nat (List.length (timers st)).

(** *** Concrete runs *)

Definition question : js_string :=
  lit "What are the current data plans for Karachi?".
Definition other_question : js_string :=
  lit "Compare Jazz and Telenor pricing".
Definition answer_200 : ChatReply :=
  {| reply := lit "Here are the current data plans."; reply_sources := [] |}.

(** The events of a run, all stamped with the same time of day. *)
Definition at_noon (evs : list Event) : list (js_string * Event) :=
  map (fun ev => (lit "2024-01-01T12:00:00.000Z", ev)) evs.

(** The user sends the question and the request times out. *)
Definition send_and_time_out : list Event :=
  [Input question; ClickSend; ChatSettled (sendToAPI FetchAborted)].

(** The user sends the question and the server cannot be reached. *)
Definition send_and_lose_connection : list Event :=
  [Input question; ClickSend; ChatSettled (sendToAPI FetchFailed)].

(** Within the retry delay the user sends another question, which is
    answered; then the retry timer of the first question fires, the user
    confirms, and the question that is sent again times out again. *)
Definition answered_then_retried : list Event :=
  [Input other_question; ClickSend;
   ChatSettled (sendToAPI (HttpOk (Some answer_200)));
   RetryTimer true;
   ChatSettled (sendToAPI FetchAborted)].

(** The user confirms every retry dialog and every attempt times out. *)
Definition retried_to_the_end : list Event :=
  send_and_time_out
  ++ [RetryTimer true; ChatSettled (sendToAPI FetchAborted);
      RetryTimer true; ChatSettled (sendToAPI FetchAborted);
      RetryTimer true; ChatSettled (sendToAPI FetchAborted);
      RetryTimer true].

Definition interleaved_run : list Event :=
  send_and_time_out ++ answered_then_retried ++ answered_then_retried
  ++ answered_then_retried ++ answered_then_retried.

End Client.

(* ================================================================== *)
(** ** The rest of the relay: logging, the error handler, the wire    *)
(* ================================================================== *)

Module Relay.
Import Server.

(** The preview of a text in the handler's log lines:
    [s.substring(0, 100)] followed by ['...'] when [s.length > 100]. *)
Definition log_preview (s : js_string) : js_string :=
  firstn 100 s ++ (if strlen s >? 100 then lit "..." else lit "").

(** The global error handler, [app.use((error, req, res, next) => ...)]. *)
Definition error_handler (env : Env) (error : JsError) : Response :=
  json 500 [("error", VString (lit "Internal server error"));
            ("timestamp", VString (now env));
            ("details",
              if strict_eq_lit (env_value (NODE_ENV env)) "development"
              then VString (err_message error) else VUndefined)].

(** Neither of the two input checks of the chat handler (lines 70 and 76)
    turns the message down. *)
Definition passes_validation (message : value) : bool :=
  negb (negb (truthy message) || negb (is_string message)
        || (strlen (trim (text_of message)) =? 0))
  && negb (strlen (text_of message) >? 4000).

(** The downstream error codes the [catch] block tells apart. *)
Definition mapped_codes : list string :=
  ["insufficient_quota"; "invalid_api_key"; "rate_limit_exceeded";
   "context_length_exceeded"].

Definition is_mapped (code : value) : bool :=
  existsb (strict_eq_lit code) mapped_codes.

(** The sources of a reply when every one of them is a string. *)
Fixpoint strings (items : list value) : option (list js_string) :=
  match items with
  | [] => Some []
  | VString text :: rest =>
      match strings rest with
      | Some texts => Some (text :: texts)
      | None => None
      end
  | _ :: _ => None
  end.

(** What the [fetch] of the client's [sendToAPI] yields for a response of
    the relay: [response.ok] is a status from 200 to 299; the body is read
    with [response.json()], [reply] and [sources] of a success, [error] and
    [code] of a failure. The client is modelled for bodies of the shape
    the relay sends; a body of another shape (a success without a textual
    [reply] or with sources that are not strings, a failure whose [error]
    is not a string) has no counterpart there, and the result is [None]. *)
Definition receive (r : Response) : option Client.Fetch :=
  if (200 <=? status r) && (status r <=? 299) then
    match get "reply" (body r), get "sources" (body r) with
    | Some (VString text), Some (VArray items) =>
        match strings items with
        | Some texts =>
            Some (Client.HttpOk
                    (Some {| Client.reply := text;
                             Client.reply_sources := texts |}))
        | None => None
        end
    | Some (VString text), None =>
        (* addMessage(role, content, sources = []) *)
        Some (Client.HttpOk
                (Some {| Client.reply := text;
                         Client.reply_sources := [] |}))
    | _, _ => None
    end
  else
    let code := match get "code" (body r) with
                | Some code => code
                | None => VUndefined
                end in
    match get "error" (body r) with
    | Some (VString text) =>
        Some (Client.HttpError (status r) (Some text) code)
    | Some other =>
        (* errorData.error || `HTTP ${response.status}` *)
        if truthy other then None
        else Some (Client.HttpError (status r) None code)
    | None => Some (Client.HttpError (status r) None code)
    end.

(** The request [sendToAPI] posts for [message] in a page whose session
    identifier is [session], served by the relay. *)
Definition post_chat (env : Env) (create : js_string -> Downstream)
           (session message : js_string) : option Client.Fetch :=
  receive (chat env create {| message := VString message;
                              sessionId := VString session |}).

End Relay.

(* ================================================================== *)
(** ** Invariants of the page                                         *)
(* ================================================================== *)

Module Page.
Import Client.




(** Either no request is awaited, the loading flag is down and the typing
    indicator hidden; or exactly one is, the flag is up and the indicator
    shown. *)
Definition one_at_a_time (st : State) : Prop :=
  (isLoading st = false /\ inflight st = []
   /\ typingIndicator_hidden st = true)
  \/ (isLoading st = true /\ (exists m, inflight st = [m])
      /\ typingIndicator_hidden st = false).

(** A message the server's input checks accept: trimmed, not empty, at
    most [MAX_MESSAGE_LENGTH] long. *)
Definition sendable (m : js_string) : Prop :=
  0 < strlen m /\ strlen m <= MAX_MESSAGE_LENGTH /\ trim m = m.

(** The send button is enabled only on an input that may be sent, and every
    message awaited or waiting for a retry is sendable. *)
Definition only_sendable (st : State) : Prop :=
  (sendButton_disabled st = false ->
   0 < strlen (trim (messageInput st))
   /\ strlen (messageInput st) <= MAX_MESSAGE_LENGTH)
  /\ Forall sendable (inflight st)
  /\ Forall sendable (timers st).

(** The user never confirms a clear in the trace. *)
Fixpoint no_confirmed_clear (trace : list (js_string * Event)) : bool :=
  match trace with
  | [] => true
  | (_, ClickClear true) :: _ => false
  | _ :: rest => no_confirmed_clear rest
  end.

(** A page in the middle of a request for [question], with the retry timer
    of an earlier failure still pending. *)
Definition busy_with_retry_pending : State :=
  fst (run (at_noon (send_and_time_out ++ [Input other_question; ClickSend]))
           (page_load (lit "s1"))).

End Page.

(* ================================================================== *)
(** ** Properties of [trim]                                           *)
(* ================================================================== *)

Section TrimFacts.

Lemma str_eqb_eq (a b : js_string) : str_eqb a b = true <-> a = b.
Proof.
  revert b. induction a as [|x a IH]; intros [|y b]; cbn [str_eqb];
    split; intros H; try reflexivity; try discriminate.
  - apply andb_true_iff in H as [Hx Hr].
    apply N.eqb_eq in Hx. apply IH in Hr. congruence.
  - injection H as -> ->. rewrite N.eqb_refl. apply IH. reflexivity.
Qed.

Lemma strict_eq_lit_eq (v : value) (s : string) :
  strict_eq_lit v s = true <-> v = VString (lit s).
Proof.
  destruct v; cbn [strict_eq_lit]; split; intros H;
    try discriminate.
  - apply str_eqb_eq in H. congruence.
  - injection H as ->. apply str_eqb_eq. reflexivity.
Qed.

Lemma trimStart_length (s : js_string) :
  (List.length (trimStart s) <= List.length s)%nat.
Proof.
  induction s as [|c s IH]; simpl; [lia|].
  destruct (is_white_space c); simpl; lia.
Qed.

Lemma trim_strlen_le (s : js_string) : strlen (trim s) <= strlen s.
Proof.
  unfold strlen, trim, trimEnd.
  rewrite length_rev.
  pose proof (trimStart_length (rev (trimStart s))) as H1.
  rewrite length_rev in H1.
  pose proof (trimStart_length s). lia.
Qed.

Lemma trimStart_blank (s : js_string) :
  forallb is_white_space s = true -> trimStart s = [].
Proof.
  induction s as [|c s IH]; simpl; [reflexivity|].
  intros H. apply andb_true_iff in H as [Hc Hs].
  rewrite Hc. auto.
Qed.

(** A string made of white space only trims to the empty string. *)
Lemma trim_blank (s : js_string) :
  forallb is_white_space s = true -> trim s = [].
Proof.
  intros H. unfold trim. rewrite (trimStart_blank s H). reflexivity.
Qed.

Lemma strlen_nonneg (s : js_string) : 0 <= strlen s.
Proof. unfold strlen. lia. Qed.

Lemma strlen_zero (s : js_string) : strlen s = 0 -> s = [].
Proof. destruct s; [reflexivity | unfold strlen; simpl; lia]. Qed.

End TrimFacts.

(* ================================================================== *)
(** ** Properties of the relay server                                 *)
(* ================================================================== *)

Module ServerFacts.
Import Server.

Lemma json_number_nonneg (f : float) :
  nonneg_finite f = true -> json_number f = VNumber f.
Proof.
  unfold nonneg_finite, json_number.
  destruct (PrimFloat.classify f); intros H; try discriminate; reflexivity.
Qed.

Lemma or_else_defined (a : value) : or_else a anonymous <> VUndefined.
Proof.
  unfold or_else. destruct (truthy a) eqn:E; [|discriminate].
  destruct a; simpl in E; congruence.
Qed.

Lemma json_chat_reply env reply session :
  session <> VUndefined ->
  json 200 (chat_reply env reply session) =
  {| status := 200; body := chat_reply env reply (json_value session) |}.
Proof.
  intros H. unfold json, json_object, chat_reply.
  destruct session; [congruence | reflexivity ..].
Qed.

(** A session identifier that is falsy is replaced by a string, which has
    a string: only the identifier itself can make line 90 throw. *)
Lemma to_string_or_else (sid : value) :
  to_string_throws (or_else sid anonymous) = to_string_throws sid.
Proof.
  unfold or_else. destruct (truthy sid) eqn:E; [reflexivity|].
  destruct sid; try reflexivity; discriminate.
Qed.

Lemma json_value_or_else_string (s : js_string) :
  json_value (or_else (VString s) anonymous) = or_else (VString s) anonymous.
Proof. unfold or_else. destruct (truthy (VString s)); reflexivity. Qed.

(** A message that passes both checks, with the client configured: the
    handler writes its log line, which throws when the session identifier
    has no string, and otherwise reaches the downstream call. *)
Lemma chat_past_the_checks env create m sid :
  0 < strlen (trim m) -> strlen m <= 4000 -> openai env = true ->
  chat env create {| message := VString m; sessionId := sid |} =
  if to_string_throws sid then chat_catch env cannot_convert
  else
    match create (trim m) with
    | Reply reply =>
        {| status := 200;
           body := chat_reply env reply (json_value (or_else sid anonymous)) |}
    | Throws e => chat_catch env e
    end.
Proof.
  intros Hne Hlen Hcfg. unfold chat. cbn [message sessionId text_of is_string truthy].
  pose proof (trim_strlen_le m) as Hle.
  replace (strlen m =? 0) with false by (symmetry; apply Z.eqb_neq; lia).
  replace (strlen (trim m) =? 0) with false by (symmetry; apply Z.eqb_neq; lia).
  replace (strlen m >? 4000) with false
    by (symmetry; rewrite Z.gtb_ltb; apply Z.ltb_ge; lia).
  rewrite Hcfg. cbn [negb orb].
  change (VString (lit "anonymous")) with anonymous.
  rewrite to_string_or_else.
  destruct (to_string_throws sid); [reflexivity|].
  destruct (create (trim m)) as [reply|e]; [|reflexivity].
  apply (json_chat_reply env reply (or_else sid anonymous)).
  apply or_else_defined.
Qed.

Lemma chat_reaches_downstream env create m sid :
  0 < strlen (trim m) -> strlen m <= 4000 -> openai env = true ->
  to_string_throws sid = false ->
  chat env create {| message := VString m; sessionId := sid |} =
  match create (trim m) with
  | Reply reply =>
      {| status := 200;
         body := chat_reply env reply (json_value (or_else sid anonymous)) |}
  | Throws e => chat_catch env e
  end.
Proof.
  intros Hne Hlen Hcfg Hs.
  rewrite (chat_past_the_checks env create m sid Hne Hlen Hcfg), Hs.
  reflexivity.
Qed.

(** A string whose raw length exceeds 4000 and which is not blank is
    turned down by the length check. *)
Lemma chat_too_long env create m sid :
  0 < strlen (trim m) -> 4000 < strlen m ->
  chat env create {| message := VString m; sessionId := sid |} =
  {| status := 400; body := too_long_error |}.
Proof.
  intros Hne Hlen. unfold chat. cbn [message sessionId text_of is_string truthy].
  replace (strlen m =? 0) with false by (symmetry; apply Z.eqb_neq; lia).
  replace (strlen (trim m) =? 0) with false by (symmetry; apply Z.eqb_neq; lia).
  replace (strlen m >? 4000) with true
    by (symmetry; rewrite Z.gtb_ltb; apply Z.ltb_lt; lia).
  reflexivity.
Qed.

Lemma chat_blank env create m sid :
  trim m = [] ->
  chat env create {| message := VString m; sessionId := sid |} =
  {| status := 400; body := empty_message_error |}.
Proof.
  intros H. unfold chat. cbn [message text_of].
  rewrite H. cbn [strlen List.length Z.of_nat Z.eqb].
  rewrite !orb_true_r. reflexivity.
Qed.

Lemma chat_not_a_string env create v sid :
  is_string v = false ->
  chat env create {| message := v; sessionId := sid |} =
  {| status := 400; body := empty_message_error |}.
Proof.
  intros H. unfold chat. cbn [message]. rewrite H.
  cbn [negb]. rewrite orb_true_r. reflexivity.
Qed.

Import Relay.

Lemma passes_validation_string v :
  passes_validation v = true ->
  exists m, v = VString m /\ 0 < strlen (trim m) /\ strlen m <= 4000.
Proof.
  unfold passes_validation. intros H.
  apply andb_true_iff in H as [H1 H2].
  apply negb_true_iff in H1, H2.
  apply orb_false_iff in H1 as [H1 H3].
  apply orb_false_iff in H1 as [_ H1].
  destruct v; try discriminate. exists s. cbn [text_of] in *.
  split; [reflexivity|].
  apply Z.eqb_neq in H3. rewrite Z.gtb_ltb in H2. apply Z.ltb_ge in H2.
  pose proof (strlen_nonneg (trim s)). lia.
Qed.

Lemma string_passes_validation m :
  0 < strlen (trim m) -> strlen m <= 4000 ->
  passes_validation (VString m) = true.
Proof.
  intros H1 H2. pose proof (trim_strlen_le m).
  unfold passes_validation. cbn [truthy is_string text_of].
  replace (strlen m =? 0) with false by (symmetry; apply Z.eqb_neq; lia).
  replace (strlen (trim m) =? 0) with false
    by (symmetry; apply Z.eqb_neq; lia).
  replace (strlen m >? 4000) with false
    by (symmetry; rewrite Z.gtb_ltb; apply Z.ltb_ge; lia).
  reflexivity.
Qed.

(** The handler, with its two input checks folded into
    [passes_validation]. *)
Lemma chat_by_cases env create req :
  chat env create req =
  if passes_validation (message req) then
    if openai env then
      if to_string_throws (sessionId req) then chat_catch env cannot_convert
      else
        match create (trim (text_of (message req))) with
        | Reply reply =>
            {| status := 200;
               body := chat_reply env reply
                         (json_value (or_else (sessionId req) anonymous)) |}
        | Throws e => chat_catch env e
        end
    else {| status := 500; body := not_configured_error |}
  else if negb (truthy (message req)) || negb (is_string (message req))
          || (strlen (trim (text_of (message req))) =? 0)
       then {| status := 400; body := empty_message_error |}
       else {| status := 400; body := too_long_error |}.
Proof.
  destruct req as [msg sid]. unfold chat, passes_validation.
  cbn [message sessionId].
  destruct (negb (truthy msg) || negb (is_string msg)
            || (strlen (trim (text_of msg)) =? 0)); [reflexivity|].
  destruct (strlen (text_of msg) >? 4000); [reflexivity|].
  cbn [negb andb].
  destruct (openai env); [|reflexivity]. cbn [negb].
  change (VString (lit "anonymous")) with anonymous.
  rewrite to_string_or_else.
  destruct (to_string_throws sid); [reflexivity|].
  destruct (create (trim (text_of msg))) as [reply|e]; [|reflexivity].
  apply (json_chat_reply env reply (or_else sid anonymous)).
  apply or_else_defined.
Qed.

(** The responses of the [catch] block, one by one. *)
Lemma chat_catch_table env e :
  (err_code e = VString (lit "insufficient_quota") ->
   status (chat_catch env e) = 429
   /\ get "code" (body (chat_catch env e))
      = Some (VString (lit "quota_exceeded")))
  /\ (err_code e = VString (lit "invalid_api_key") ->
      status (chat_catch env e) = 401
      /\ get "code" (body (chat_catch env e))
         = Some (VString (lit "invalid_key")))
  /\ (err_code e = VString (lit "rate_limit_exceeded") ->
      status (chat_catch env e) = 429
      /\ get "code" (body (chat_catch env e))
         = Some (VString (lit "rate_limit")))
  /\ (err_code e = VString (lit "context_length_exceeded") ->
      status (chat_catch env e) = 400
      /\ get "code" (body (chat_catch env e))
         = Some (VString (lit "context_length")))
  /\ (is_mapped (err_code e) = false ->
      status (chat_catch env e) = 500
      /\ get "code" (body (chat_catch env e))
         = Some (VString (lit "server_error"))).
Proof.
  destruct e as [code text]. cbn [err_code].
  unfold chat_catch, is_mapped, mapped_codes.
  cbn [existsb err_code err_message].
  do 4 (split; [intros ->; split; reflexivity|]).
  intros H.
    apply orb_false_iff in H; destruct H as [E1 H];
    apply orb_false_iff in H; destruct H as [E2 H];
    apply orb_false_iff in H; destruct H as [E3 H];
    apply orb_false_iff in H; destruct H as [E4 _];
    rewrite E1, E2, E3, E4;
    destruct (strict_eq_lit (env_value (NODE_ENV env)) "development");
    split; reflexivity.
Qed.

Lemma chat_catch_body env e :
  body (chat_catch env e) <> too_long_error
  /\ body (chat_catch env e) <> empty_message_error
  /\ body (chat_catch env e) <> not_configured_error.
Proof.
  unfold chat_catch.
  repeat (destruct (strict_eq_lit (err_code e) _);
          [repeat split; discriminate|]).
  destruct (strict_eq_lit (env_value (NODE_ENV env)) "development");
    repeat split; discriminate.
Qed.

End ServerFacts.

Module ServerClaims.
Import Server ServerFacts Relay.

(** C7. A chat request whose message trims to the empty string, whatever
    white space it is made of and in particular the empty message itself,
    is answered with HTTP 400 and the error text "Message is required and
    must be a non-empty string"; this holds whatever the session
    identifier, the configuration and the downstream endpoint are. *)
Theorem chat_rejects_blank_message env create sid :
  (forall m, trim m = [] ->
     chat env create {| message := VString m; sessionId := sid |} =
     {| status := 400; body := empty_message_error |})
  /\ (forall m, forallb is_white_space m = true ->
     chat env create {| message := VString m; sessionId := sid |} =
     {| status := 400; body := empty_message_error |})
  /\ chat env create {| message := VString []; sessionId := sid |} =
     {| status := 400; body := empty_message_error |}.
Proof.
  split; [|split].
  - intros m H. apply chat_blank; assumption.
  - intros m H. apply chat_blank, trim_blank; assumption.
  - apply chat_blank. reflexivity.
Qed.

Lemma chat_rejects_blank_message_witness :
  trim (lit "   ") = []
  /\ chat env_configured always_replies
       {| message := VString (lit "   "); sessionId := VUndefined |} =
     {| status := 400; body := empty_message_error |}.
Proof.
  split; [reflexivity|].
  apply (proj1 (chat_rejects_blank_message env_configured always_replies
                  VUndefined)).
  reflexivity.
Defined.

(** C1 (amended). The length check is on the raw message, not on the
    trimmed one. A message whose trimmed length exceeds 4000 is answered
    with HTTP 400 and the "Message too long" error, and so is every
    non-blank message whose raw length exceeds 4000. A message whose raw
    length is at most 4000 (the boundary included) is never answered with
    that error; when it is not blank, the client is configured, the
    session identifier can be written to the log line and the downstream
    endpoint replies, it is answered with HTTP 200. A session identifier
    that has no string (an object with a property named [toString]) makes
    the log line throw, and the answer is the 500 of the [catch] block. *)
Theorem chat_length_limit env create sid m :
  (4000 < strlen (trim m) ->
     chat env create {| message := VString m; sessionId := sid |} =
     {| status := 400; body := too_long_error |})
  /\ (0 < strlen (trim m) -> 4000 < strlen m ->
     chat env create {| message := VString m; sessionId := sid |} =
     {| status := 400; body := too_long_error |})
  /\ (strlen m <= 4000 ->
     body (chat env create {| message := VString m; sessionId := sid |})
     <> too_long_error)
  /\ (0 < strlen (trim m) -> strlen m <= 4000 -> openai env = true ->
     to_string_throws sid = false ->
     forall reply, create (trim m) = Reply reply ->
     chat env create {| message := VString m; sessionId := sid |} =
     {| status := 200;
        body := chat_reply env reply (json_value (or_else sid anonymous)) |})
  /\ (0 < strlen (trim m) -> strlen m <= 4000 -> openai env = true ->
     to_string_throws sid = true ->
     chat env create {| message := VString m; sessionId := sid |} =
     chat_catch env cannot_convert
     /\ status (chat env create {| message := VString m;
                                   sessionId := sid |}) = 500).
Proof.
  pose proof (trim_strlen_le m) as Hle.
  split; [|split; [|split; [|split]]].
  - intros H. apply chat_too_long; lia.
  - intros H1 H2. apply chat_too_long; assumption.
  - intros H. rewrite chat_by_cases. cbn [message sessionId text_of].
    destruct (passes_validation (VString m)) eqn:Hv.
    + destruct (openai env); [|discriminate].
      destruct (to_string_throws sid); [apply chat_catch_body|].
      destruct (create (trim m)); [discriminate | apply chat_catch_body].
    + destruct (negb (truthy (VString m)) || negb (is_string (VString m))
                || (strlen (trim m) =? 0)) eqn:G; [discriminate|].
      exfalso. unfold passes_validation in Hv. cbn [text_of] in Hv.
      rewrite G in Hv. cbn [negb andb] in Hv.
      apply negb_false_iff in Hv. rewrite Z.gtb_ltb in Hv.
      apply Z.ltb_lt in Hv. lia.
  - intros H1 H2 H3 H4 reply Hr.
    rewrite (chat_reaches_downstream env create m sid H1 H2 H3 H4), Hr.
    reflexivity.
  - intros H1 H2 H3 H4.
    rewrite (chat_past_the_checks env create m sid H1 H2 H3), H4.
    split; [reflexivity|]. apply (chat_catch_table env cannot_convert).
    reflexivity.
Qed.

Lemma chat_length_limit_witness :
  (4000 < strlen (trim letters_4001)
   /\ chat env_configured always_replies
        {| message := VString letters_4001; sessionId := VUndefined |} =
      {| status := 400; body := too_long_error |})
  /\ (strlen letters_4000 <= 4000
      /\ status (chat env_configured always_replies
                   {| message := VString letters_4000;
                      sessionId := VUndefined |}) = 200).
Proof.
  split; split.
  - vm_compute. reflexivity.
  - apply (proj1 (chat_length_limit env_configured always_replies
                    VUndefined letters_4001)).
    vm_compute. reflexivity.
  - vm_compute. discriminate.
  - destruct (chat_length_limit env_configured always_replies
                VUndefined letters_4000) as (_ & _ & _ & H & _).
    rewrite (H ltac:(vm_compute; reflexivity)
               ltac:(vm_compute; discriminate)
               ltac:(reflexivity) ltac:(reflexivity)
               (lit "Here are the current data plans.")
               ltac:(reflexivity)).
    reflexivity.
Defined.

(** C1, as stated, fails: a message of 4000 letters behind one space has
    trimmed length exactly 4000, the client is configured and the
    downstream endpoint replies, and the request is still turned down
    with HTTP 400 by the length check. *)
Lemma chat_padded_maximum_rejected :
  strlen (trim padded_4000) = 4000
  /\ openai env_configured = true
  /\ always_replies (trim padded_4000)
     = Reply (lit "Here are the current data plans.")
  /\ chat env_configured always_replies
       {| message := VString padded_4000; sessionId := VUndefined |} =
     {| status := 400; body := too_long_error |}.
Proof.
  repeat split; vm_compute; reflexivity.
Qed.

(** Every response of the [catch] block carries a code of the taxonomy
    with that code's status. *)
Lemma chat_catch_coded env e : coded_by_taxonomy (chat_catch env e).
Proof.
  unfold chat_catch, coded_by_taxonomy.
  destruct (strict_eq_lit (err_code e) "insufficient_quota");
    [exists "quota_exceeded"; split; [reflexivity | simpl; tauto]|].
  destruct (strict_eq_lit (err_code e) "invalid_api_key");
    [exists "invalid_key"; split; [reflexivity | simpl; tauto]|].
  destruct (strict_eq_lit (err_code e) "rate_limit_exceeded");
    [exists "rate_limit"; split; [reflexivity | simpl; tauto]|].
  destruct (strict_eq_lit (err_code e) "context_length_exceeded");
    [exists "context_length"; split; [reflexivity | simpl; tauto]|].
  exists "server_error"; split; [|simpl; tauto].
  destruct (strict_eq_lit (env_value (NODE_ENV env)) "development");
    reflexivity.
Qed.

(** C2 (amended). What a failure response of the chat operation carries
    is decided by where the request fails. A validation failure is
    answered with HTTP 400 and a missing credential with HTTP 500, both
    with an [error] text and no [code] field. A fault caught by the handler
    (a downstream fault, mapped or unmapped, or a fault of the handler's
    own such as a session identifier that cannot be written to the log
    line) is answered by the [catch] block, which always sends a [code] of
    the fixed taxonomy with that code's status: [quota_exceeded] 429,
    [invalid_key] 401, [rate_limit] 429, [context_length] 400, and
    [server_error] 500 for every fault it does not map. *)
Theorem chat_failure_codes env create req :
  let r := chat env create req in
  (negb (truthy (message req)) || negb (is_string (message req))
   || (strlen (trim (text_of (message req))) =? 0) = true ->
   r = {| status := 400; body := empty_message_error |}
   /\ get "code" (body r) = None)
  /\ (negb (truthy (message req)) || negb (is_string (message req))
      || (strlen (trim (text_of (message req))) =? 0) = false ->
      (strlen (text_of (message req)) >? 4000) = true ->
      r = {| status := 400; body := too_long_error |}
      /\ get "code" (body r) = None)
  /\ (passes_validation (message req) = false ->
      status r = 400 /\ get "code" (body r) = None
      /\ (body r = empty_message_error \/ body r = too_long_error))
  /\ (passes_validation (message req) = true -> openai env = false ->
      r = {| status := 500; body := not_configured_error |}
      /\ get "code" (body r) = None)
  /\ (passes_validation (message req) = true -> openai env = true ->
      forall e,
        (to_string_throws (sessionId req) = true /\ e = cannot_convert)
        \/ (to_string_throws (sessionId req) = false
            /\ create (trim (text_of (message req))) = Throws e) ->
        r = chat_catch env e)
  /\ (forall e,
        coded_by_taxonomy (chat_catch env e)
        /\ (err_code e = VString (lit "insufficient_quota") ->
            status (chat_catch env e) = 429
            /\ get "code" (body (chat_catch env e))
               = Some (VString (lit "quota_exceeded")))
        /\ (err_code e = VString (lit "invalid_api_key") ->
            status (chat_catch env e) = 401
            /\ get "code" (body (chat_catch env e))
               = Some (VString (lit "invalid_key")))
        /\ (err_code e = VString (lit "rate_limit_exceeded") ->
            status (chat_catch env e) = 429
            /\ get "code" (body (chat_catch env e))
               = Some (VString (lit "rate_limit")))
        /\ (err_code e = VString (lit "context_length_exceeded") ->
            status (chat_catch env e) = 400
            /\ get "code" (body (chat_catch env e))
               = Some (VString (lit "context_length")))
        /\ (is_mapped (err_code e) = false ->
            status (chat_catch env e) = 500
            /\ get "code" (body (chat_catch env e))
               = Some (VString (lit "server_error"))))
  /\ (status r = 200 \/ coded_by_taxonomy r
      \/ (get "code" (body r) = None
          /\ (status r = 400 \/ status r = 500))).
Proof.
  cbv zeta.
  split; [|split; [|split; [|split; [|split; [|split]]]]].
  - intros G. rewrite chat_by_cases. unfold passes_validation.
    rewrite G. split; reflexivity.
  - intros G L. rewrite chat_by_cases. unfold passes_validation.
    rewrite G, L. split; reflexivity.
  - intros Hv. rewrite chat_by_cases, Hv.
    destruct (negb (truthy (message req)) || negb (is_string (message req))
              || (strlen (trim (text_of (message req))) =? 0));
      repeat split; auto.
  - intros Hv Hc. rewrite chat_by_cases, Hv, Hc. split; reflexivity.
  - intros Hv Hc e [[Ht ->] | [Ht Hr]];
      rewrite chat_by_cases, Hv, Hc, Ht; [reflexivity|].
    rewrite Hr. reflexivity.
  - intros e. split; [apply chat_catch_coded | apply chat_catch_table].
  - rewrite chat_by_cases.
    destruct (passes_validation (message req)).
    + destruct (openai env); [|right; right; split; auto].
      destruct (to_string_throws (sessionId req));
        [right; left; apply chat_catch_coded|].
      destruct (create (trim (text_of (message req))));
        [left; reflexivity | right; left; apply chat_catch_coded].
    + destruct (negb (truthy (message req)) || negb (is_string (message req))
                || (strlen (trim (text_of (message req))) =? 0));
        right; right; split; auto.
Qed.

(** C2, as stated, fails: the answer to an empty message is a failure
    response (status 400) that carries no [code] field at all, and so
    does the answer given when the credential is missing. *)
Lemma chat_validation_has_no_code :
  let r := chat env_configured always_replies
             {| message := VString []; sessionId := VUndefined |} in
  let r' := chat env_unconfigured always_replies
              {| message := VString question; sessionId := VUndefined |} in
  status r = 400 /\ get "code" (body r) = None /\ ~ coded_by_taxonomy r
  /\ status r' = 500 /\ get "code" (body r') = None
  /\ ~ coded_by_taxonomy r'.
Proof.
  cbv zeta. repeat split; try reflexivity.
  - intros [c [H _]]. vm_compute in H. discriminate.
  - intros [c [H _]]. vm_compute in H. discriminate.
Qed.

(** C5 (amended). The health operation answers with status 200 in every
    configuration (it is a total function of the process surroundings);
    its body holds status "healthy", the timestamp, the uptime, the
    environment, version "1.0.0" and a boolean field named
    [openai_configured], which is false exactly when the credential is
    unset or empty. There is no field named [configured]. *)
Theorem health_response env :
  let r := health env in
  status r = 200
  /\ get "status" (body r) = Some (VString (lit "healthy"))
  /\ get "timestamp" (body r) = Some (VString (now env))
  /\ get "uptime" (body r) = Some (VNumber (uptime env))
  /\ (exists e, get "environment" (body r) = Some (VString e))
  /\ get "version" (body r) = Some (VString (lit "1.0.0"))
  /\ get "configured" (body r) = None
  /\ exists b, get "openai_configured" (body r) = Some (VBool b)
               /\ (b = false <->
                   OPENAI_API_KEY env = None \/ OPENAI_API_KEY env = Some []).
Proof.
  destruct env as [key node t up mk Hup]. cbv zeta.
  unfold health, json, json_object, or_else.
  cbn [OPENAI_API_KEY NODE_ENV now uptime status body].
  assert (Hkey : negb (negb (truthy (env_value key))) = false <->
                 key = None \/ key = Some []).
  { destruct key as [[|c k]|]; simpl; split; intros H;
      try reflexivity; try discriminate; auto;
      destruct H as [H|H]; discriminate. }
  pose proof (json_number_nonneg up Hup) as Eup.
  destruct node as [[|c n]|]; cbn -[json_number]; rewrite Eup;
    (repeat split; [eexists; reflexivity |
                    eexists; split; [reflexivity | apply Hkey]]).
Qed.

(** C5, as stated, fails: the body of the health response has no field
    named [configured], with or without the credential. *)
Lemma health_has_no_configured_field :
  get "configured" (body (health env_unconfigured)) = None
  /\ get "configured" (body (health env_configured)) = None
  /\ ~ (exists b, get "configured" (body (health env_unconfigured))
                    = Some (VBool b)).
Proof.
  repeat split; try reflexivity.
  intros [b H]. vm_compute in H. discriminate.
Qed.

(** C6 (amended). For a chat request that succeeds downstream and whose
    [sessionId] is a string, the [sessionId] of the response is that
    string when it is not empty and the literal "anonymous" when it is
    empty; a request without [sessionId], or with any falsy one, gets
    "anonymous". A truthy [sessionId] that is not a string is echoed as
    [JSON.stringify] writes it (itself, unless it holds an infinite number
    or a negative zero), provided it can be written to the log line; one
    that has no string (an object with a property named [toString]) makes
    the log line throw, and the answer is 500 [server_error] with no
    [sessionId]. *)
Theorem chat_session_echo env create m sid reply :
  0 < strlen (trim m) -> strlen m <= 4000 -> openai env = true ->
  create (trim m) = Reply reply ->
  let r := chat env create {| message := VString m; sessionId := sid |} in
  (forall s, sid = VString s ->
     status r = 200
     /\ (s <> [] -> get "sessionId" (body r) = Some (VString s))
     /\ (s = [] -> get "sessionId" (body r) = Some anonymous))
  /\ (sid = VUndefined ->
      status r = 200 /\ get "sessionId" (body r) = Some anonymous)
  /\ (truthy sid = false ->
      status r = 200 /\ get "sessionId" (body r) = Some anonymous)
  /\ (truthy sid = true -> to_string_throws sid = false ->
      status r = 200
      /\ get "sessionId" (body r) = Some (json_value sid)
      /\ (json_value sid = sid -> get "sessionId" (body r) = Some sid))
  /\ (to_string_throws sid = true ->
      r = chat_catch env cannot_convert
      /\ status r = 500
      /\ get "sessionId" (body r) = None).
Proof.
  intros H1 H2 H3 Hr. cbv zeta.
  rewrite (chat_past_the_checks env create m sid H1 H2 H3), Hr.
  assert (F : truthy sid = false ->
              (if to_string_throws sid then chat_catch env cannot_convert
               else {| status := 200;
                       body := chat_reply env reply
                                 (json_value (or_else sid anonymous)) |})
              = {| status := 200; body := chat_reply env reply anonymous |}).
  { intros Ht. unfold or_else. rewrite Ht.
    destruct sid; try discriminate; reflexivity. }
  split; [|split; [|split; [|split]]].
  - intros s ->. destruct s as [|c s].
    + rewrite (F eq_refl). split; [reflexivity|].
      split; [intros C; congruence | intros _; reflexivity].
    + split; [reflexivity|].
      split; [intros _; reflexivity | discriminate].
  - intros ->. rewrite (F eq_refl). split; reflexivity.
  - intros Ht. rewrite (F Ht). split; reflexivity.
  - intros Ht Hs. rewrite Hs. unfold or_else. rewrite Ht.
    split; [reflexivity|]. split; [reflexivity|].
    intros E. cbn [body chat_reply]. rewrite E. reflexivity.
  - intros Hs. rewrite Hs. split; [reflexivity|].
    split; [apply (chat_catch_table env cannot_convert); reflexivity|].
    unfold chat_catch. cbn [cannot_convert err_code strict_eq_lit].
    destruct (strict_eq_lit (env_value (NODE_ENV env)) "development");
      reflexivity.
Qed.

Lemma chat_session_echo_witness :
  get "sessionId"
      (body (chat env_configured always_replies
               {| message := VString question;
                  sessionId := VString (lit "s1") |}))
  = Some (VString (lit "s1")).
Proof.
  destruct (chat_session_echo env_configured always_replies
              question (VString (lit "s1"))
              (lit "Here are the current data plans.")
              ltac:(vm_compute; reflexivity)
              ltac:(vm_compute; discriminate)
              ltac:(reflexivity) ltac:(reflexivity)) as (H & _).
  apply (H (lit "s1") eq_refl). discriminate.
Defined.

(** C6, as stated, fails: a request that provides the empty string as its
    [sessionId] succeeds downstream and gets "anonymous" back, not the
    [sessionId] it provided; the same happens to the number 0. *)
Lemma chat_empty_session_not_echoed :
  let r := chat env_configured always_replies
             {| message := VString question; sessionId := VString [] |} in
  let r' := chat env_configured always_replies
              {| message := VString question;
                 sessionId := VNumber 0%float |} in
  status r = 200
  /\ get "sessionId" (body r) = Some (VString (lit "anonymous"))
  /\ get "sessionId" (body r) <> Some (VString [])
  /\ status r' = 200
  /\ get "sessionId" (body r') <> Some (VNumber 0%float).
Proof.
  cbv zeta. repeat split; try reflexivity.
  - vm_compute. discriminate.
  - vm_compute. discriminate.
Qed.

(** C10. A request whose [sessionId] is present but is the empty string
    is answered exactly as the same request without a [sessionId]; when
    it succeeds, the [sessionId] of the response is the literal
    "anonymous" and not the empty string. *)
Theorem chat_empty_session_is_anonymous env create msg :
  chat env create {| message := msg; sessionId := VString [] |}
  = chat env create {| message := msg; sessionId := VUndefined |}
  /\ forall m reply,
       msg = VString m ->
       0 < strlen (trim m) -> strlen m <= 4000 -> openai env = true ->
       create (trim m) = Reply reply ->
       let r := chat env create {| message := msg;
                                   sessionId := VString [] |} in
       status r = 200
       /\ get "sessionId" (body r) = Some (VString (lit "anonymous"))
       /\ get "sessionId" (body r) <> Some (VString []).
Proof.
  split; [reflexivity|].
  intros m reply -> H1 H2 H3 Hr. cbv zeta.
  rewrite (chat_reaches_downstream env create m (VString []) H1 H2 H3
             eq_refl), Hr.
  repeat split. vm_compute. discriminate.
Qed.

Lemma chat_empty_session_is_anonymous_witness :
  get "sessionId"
      (body (chat env_configured always_replies
               {| message := VString question; sessionId := VString [] |}))
  = Some (VString (lit "anonymous")).
Proof.
  apply (proj2 (chat_empty_session_is_anonymous env_configured
                  always_replies (VString question))
           question (lit "Here are the current data plans.")
           eq_refl
           ltac:(vm_compute; reflexivity)
           ltac:(vm_compute; discriminate)
           ltac:(reflexivity) ltac:(reflexivity)).
Defined.

End ServerClaims.

(* ================================================================== *)
(** ** Properties of the chat client                                  *)
(* ================================================================== *)

Module ClientFacts.
Import Client.

Ltac fields :=
  cbn [messages isLoading sessionId retryCount messagesContainer messageInput
       sendButton_disabled typingIndicator_hidden errorDisplay_hidden
       errorMessage connectionStatus inflight timers
       set_messages set_isLoading set_retryCount set_messagesContainer
       set_messageInput set_sendButton_disabled set_typingIndicator_hidden
       set_errorDisplay_hidden set_errorMessage set_connectionStatus
       set_inflight set_timers
       handleInputChange addMessage showTypingIndicator hideTypingIndicator
       showError hideError updateConnectionStatus fst snd] in *.

(** *** What [handleSendMessage] leaves alone *)

Lemma handleSendMessage_frame now st :
  let st' := handleSendMessage now st in
  retryCount st' = retryCount st
  /\ timers st' = timers st
  /\ connectionStatus st' = connectionStatus st.
Proof.
  cbv zeta. unfold handleSendMessage.
  destruct ((strlen (trim (messageInput st)) =? 0) || isLoading st);
    fields; auto.
Qed.

(** *** [handleAPIError] *)

Lemma handleAPIError_retry now e original st :
  let st' := handleAPIError now e original st in
  if canRetry e && (retryCount st <? RETRY_ATTEMPTS)
  then retryCount st' = retryCount st + 1
       /\ timers st' = timers st ++ [original]
  else retryCount st' = retryCount st /\ timers st' = timers st.
Proof.
  cbv zeta. unfold handleAPIError, canRetry.
  destruct (classify e) as [[text retry] offline]. fields.
  destruct offline; fields;
    destruct (retry && (retryCount st <? RETRY_ATTEMPTS)); fields; auto.
Qed.

Lemma handleAPIError_connection now e original st :
  connectionStatus (handleAPIError now e original st) =
  if snd (classify e) then StatusOffline else connectionStatus st.
Proof.
  unfold handleAPIError.
  destruct (classify e) as [[text retry] offline]. fields.
  destruct offline; fields;
    destruct (retry && (retryCount st <? RETRY_ATTEMPTS)); fields; auto.
Qed.

Lemma handleAPIError_bounded now e original st :
  retryCount st <= RETRY_ATTEMPTS ->
  retryCount (handleAPIError now e original st) <= RETRY_ATTEMPTS.
Proof.
  intros H. pose proof (handleAPIError_retry now e original st) as R.
  cbv zeta in R.
  destruct (canRetry e); cbn [andb] in R.
  - destruct (Z.ltb_spec (retryCount st) RETRY_ATTEMPTS);
      destruct R as [R _]; rewrite R; lia.
  - destruct R as [R _]; rewrite R; lia.
Qed.

(** *** One step of the event loop *)

(** The retry counter stays within its bound. *)
Lemma step_bounded now ev st :
  retryCount st <= RETRY_ATTEMPTS ->
  retryCount (fst (step now ev st)) <= RETRY_ATTEMPTS.
Proof.
  intros H. destruct ev as [v| | |s|answer|answer| |h|]; cbn [step].
  - fields. assumption.
  - destruct (sendButton_disabled st); fields; [assumption|].
    rewrite (proj1 (handleSendMessage_frame now st)). assumption.
  - destruct (sendButton_disabled st); fields; [assumption|].
    rewrite (proj1 (handleSendMessage_frame now st)). assumption.
  - fields. unfold handleSendMessage_settled.
    destruct (inflight st) as [|m rest]; [assumption|].
    destruct s as [r|e]; fields.
    + unfold RETRY_ATTEMPTS. lia.
    + apply handleAPIError_bounded. fields. assumption.
  - unfold retryPrompt. destruct (timers st) as [|m rest]; fields;
      [assumption|].
    destruct answer; fields; [|assumption].
    rewrite (proj1 (handleSendMessage_frame now _)). fields. assumption.
  - unfold handleClearChat.
    destruct (Z.of_nat (List.length (messages st)) =? 0); fields;
      [assumption|].
    destruct answer; fields; assumption.
  - fields. assumption.
  - fields. destruct h as [|[|]]; cbn [checkBackendHealth]; fields;
      assumption.
  - fields. unfold handleOffline. fields. assumption.
Qed.

(** Every retry dialog uses up a pending timer, and every new timer uses
    up one unit of what is left of the retry counter: as long as no
    request succeeds, dialogs shown + timers pending - retry counter
    does not grow. *)
Lemma step_budget now ev st :
  (forall r, ev <> ChatSettled (Returned r)) ->
  let '(st', shown) := step now ev st in
  retry_prompts shown + pending st' - retryCount st'
  <= pending st - retryCount st.
Proof.
  intros Hev. unfold pending. destruct ev as [v| | |s|answer|answer| |h|]; cbn [step].
  - fields. cbn [retry_prompts]. lia.
  - destruct (sendButton_disabled st); cbn [retry_prompts]; [lia|].
    destruct (handleSendMessage_frame now st) as (-> & -> & _). lia.
  - destruct (sendButton_disabled st); cbn [retry_prompts]; [lia|].
    destruct (handleSendMessage_frame now st) as (-> & -> & _). lia.
  - cbn [retry_prompts]. unfold handleSendMessage_settled.
    destruct (inflight st) as [|m rest]; [lia|].
    destruct s as [r|e]; [exfalso; apply (Hev r); reflexivity|].
    fields.
    pose proof (handleAPIError_retry now e m
                  (hideTypingIndicator (set_inflight rest st))) as R.
    cbv zeta in R. fields.
    destruct (canRetry e && (retryCount st <? RETRY_ATTEMPTS));
      destruct R as [-> ->]; [|lia].
    rewrite length_app. cbn [List.length]. lia.
  - unfold retryPrompt. destruct (timers st) as [|m rest] eqn:Ht;
      [rewrite Ht; cbn [retry_prompts]; lia|].
    destruct answer; cbn [retry_prompts].
    + destruct (handleSendMessage_frame now
                  (handleInputChange
                     (set_messageInput m (set_timers rest st))))
        as (-> & -> & _).
      fields. cbn [List.length]. lia.
    + fields. cbn [List.length]. lia.
  - unfold handleClearChat.
    destruct (Z.of_nat (List.length (messages st)) =? 0);
      [cbn [retry_prompts]; lia|].
    destruct answer; fields; cbn [retry_prompts]; lia.
  - fields. cbn [retry_prompts]. lia.
  - destruct h as [|[|]]; cbn [checkBackendHealth]; fields;
      cbn [retry_prompts]; lia.
  - unfold handleOffline. fields. cbn [retry_prompts]. lia.
Qed.

(** *** What [handleAPIError] and [handleInputChange] leave alone *)

Lemma handleAPIError_frame now e original st :
  let st' := handleAPIError now e original st in
  isLoading st' = isLoading st
  /\ inflight st' = inflight st
  /\ typingIndicator_hidden st' = typingIndicator_hidden st
  /\ messageInput st' = messageInput st
  /\ sendButton_disabled st' = sendButton_disabled st.
Proof.
  cbv zeta. unfold handleAPIError.
  destruct (classify e) as [[text retry] offline].
  destruct offline; fields;
    destruct (retry && (retryCount st <? RETRY_ATTEMPTS)); fields; auto.
Qed.

Lemma handleAPIError_messages now e original st :
  let st' := handleAPIError now e original st in
  let text := fst (fst (classify e)) in
  messages st' = messages st
                 ++ [{| role := error; content := text; timestamp := now;
                        sources := [] |}]
  /\ messagesContainer st'
     = remove_welcome (messagesContainer st)
       ++ [MessageElement error (messageHTML text []) now]
  /\ errorMessage st' = text
  /\ errorDisplay_hidden st' = false.
Proof.
  cbv zeta. unfold handleAPIError.
  destruct (classify e) as [[text retry] offline].
  destruct offline; fields;
    destruct (retry && (retryCount st <? RETRY_ATTEMPTS)); fields; auto.
Qed.

Lemma handleAPIError_timers now e original st :
  timers (handleAPIError now e original st) = timers st
  \/ timers (handleAPIError now e original st) = timers st ++ [original].
Proof.
  pose proof (handleAPIError_retry now e original st) as R. cbv zeta in R.
  destruct (canRetry e && (retryCount st <? RETRY_ATTEMPTS));
    destruct R as [_ R]; auto.
Qed.

End ClientFacts.

Module ClientRuns.
Import Client ClientFacts.

Lemma retry_prompts_app a b :
  retry_prompts (a ++ b) = retry_prompts a + retry_prompts b.
Proof.
  induction a as [|[n m|] a IH]; cbn [app retry_prompts]; lia.
Qed.

Lemma retry_prompts_for_le m shown :
  0 <= retry_prompts_for m shown <= retry_prompts shown.
Proof.
  induction shown as [|[n m'|] shown IH]; cbn [retry_prompts_for retry_prompts];
    [lia| |lia].
  destruct (str_eqb m m'); lia.
Qed.

Lemma run_cons now ev rest st :
  run ((now, ev) :: rest) st =
  (fst (run rest (fst (step now ev st))),
   snd (step now ev st) ++ snd (run rest (fst (step now ev st)))).
Proof.
  cbn [run]. destruct (step now ev st) as [st1 shown1].
  cbn [fst snd]. destruct (run rest st1); reflexivity.
Qed.

Lemma run_bounded trace :
  forall st, retryCount st <= RETRY_ATTEMPTS ->
             retryCount (fst (run trace st)) <= RETRY_ATTEMPTS.
Proof.
  induction trace as [|[now ev] rest IH]; intros st H; [exact H|].
  rewrite run_cons. cbn [fst].
  apply IH, step_bounded, H.
Qed.

Lemma no_success_cons now ev rest :
  no_success ((now, ev) :: rest) = true ->
  (forall r, ev <> ChatSettled (Returned r)) /\ no_success rest = true.
Proof.
  destruct ev as [v| | |[r|e]|answer|answer| |h|]; cbn [no_success];
    intros H; try discriminate; split; try assumption;
    intros r' E; discriminate E.
Qed.

Lemma run_budget trace :
  forall st, no_success trace = true ->
    retry_prompts (snd (run trace st)) + pending (fst (run trace st))
      - retryCount (fst (run trace st))
    <= pending st - retryCount st.
Proof.
  induction trace as [|[now ev] rest IH]; intros st H.
  - cbn [run fst snd retry_prompts]. lia.
  - apply no_success_cons in H as [Hev Hrest].
    rewrite run_cons. cbn [fst snd]. rewrite retry_prompts_app.
    pose proof (step_budget now ev st Hev) as B.
    destruct (step now ev st) as [st1 shown1]. cbn [fst snd].
    specialize (IH st1 Hrest). lia.
Qed.

Lemma pending_nonneg st : 0 <= pending st.
Proof. unfold pending. lia. Qed.

(** Without a success in between, the retry dialogs of a run are at most
    the timers already pending plus what is left of the retry counter. *)
Lemma run_prompts_bounded trace st :
  no_success trace = true -> retryCount st <= RETRY_ATTEMPTS ->
  retry_prompts (snd (run trace st))
  <= pending st + (RETRY_ATTEMPTS - retryCount st).
Proof.
  intros Hs Hb.
  pose proof (run_budget trace st Hs).
  pose proof (run_bounded trace st Hb).
  pose proof (pending_nonneg (fst (run trace st))). lia.
Qed.

End ClientRuns.

Module ClientClaims.
Import Client ClientFacts ClientRuns.

(** C3 (amended). Clearing an empty transcript does nothing and shows no
    dialog. Clearing a transcript that is not empty asks for confirmation;
    on confirmation the transcript is empty afterwards (the list of
    messages and the container, which shows the welcome message again),
    while the retry counter and the connection indicator keep their
    values; when the user declines, nothing changes. *)
Theorem handleClearChat_spec answer st :
  (messages st = [] -> handleClearChat answer st = (st, []))
  /\ (messages st <> [] ->
      snd (handleClearChat answer st) = [ConfirmClear]
      /\ (answer = true ->
          let st' := fst (handleClearChat answer st) in
          messages st' = []
          /\ messagesContainer st' = [WelcomeMessage]
          /\ retryCount st' = retryCount st
          /\ connectionStatus st' = connectionStatus st)
      /\ (answer = false -> fst (handleClearChat answer st) = st)).
Proof.
  unfold handleClearChat. split.
  - intros ->. reflexivity.
  - intros H. destruct (messages st) as [|m ms] eqn:E; [congruence|].
    cbn [List.length]. rewrite Nat2Z.inj_succ.
    replace (Z.succ (Z.of_nat (List.length ms)) =? 0) with false
      by (symmetry; apply Z.eqb_neq; lia).
    destruct answer; fields; repeat split; try reflexivity;
      intros; discriminate.
Qed.

Lemma handleClearChat_spec_witness :
  let st := fst (run (at_noon send_and_time_out) (page_load (lit "s1"))) in
  messages st <> []
  /\ messages (fst (handleClearChat true st)) = []
  /\ snd (handleClearChat true st) = [ConfirmClear].
Proof.
  cbv zeta.
  assert (H : messages (fst (run (at_noon send_and_time_out)
                                 (page_load (lit "s1")))) <> [])
    by (vm_compute; discriminate).
  split; [exact H|].
  destruct (proj2 (handleClearChat_spec true _) H) as (Hd & Hy & _).
  split; [apply (Hy eq_refl) | exact Hd].
Defined.

(** C3, as stated, fails: after a request that timed out the retry
    counter is 1; clearing the transcript, with the confirmation given,
    empties the transcript and leaves the retry counter at 1. *)
Lemma clear_keeps_retry_counter :
  let before := fst (run (at_noon send_and_time_out) (page_load (lit "s1"))) in
  let after := run (at_noon [ClickClear true]) before in
  messages before <> []
  /\ retryCount before = 1
  /\ snd after = [ConfirmClear]
  /\ messages (fst after) = []
  /\ retryCount (fst after) = 1
  /\ retryCount (fst after) <> 0.
Proof.
  cbv zeta. repeat split; try (vm_compute; reflexivity);
    vm_compute; discriminate.
Qed.

(** The branch of [handleAPIError] that marks the connection offline is
    the one for the code [network], and no other. *)
Lemma classify_offline e :
  snd (classify e) = true <->
  exists status text, e = APIError status text (VString (lit "network")).
Proof.
  split.
  - destruct e as [status text code|]; [|discriminate].
    unfold classify.
    destruct (strict_eq_lit code "timeout"); [discriminate|].
    destruct (strict_eq_lit code "network") eqn:E.
    + intros _. apply strict_eq_lit_eq in E. subst code. eauto.
    + destruct (strict_eq_lit code "quota_exceeded"); [discriminate|].
      destruct (strict_eq_lit code "invalid_key"); [discriminate|].
      destruct (strict_eq_lit code "rate_limit"); [discriminate|].
      destruct (strict_eq_lit code "context_length"); discriminate.
  - intros (status & text & ->). reflexivity.
Qed.

Lemma canRetry_by_code status text code :
  canRetry (APIError status text code)
  = (strict_eq_lit code "timeout" || strict_eq_lit code "rate_limit"
     || (negb (strict_eq_lit code "network"
               || strict_eq_lit code "quota_exceeded"
               || strict_eq_lit code "invalid_key"
               || strict_eq_lit code "context_length")
         && (status >=? 500))).
Proof.
  unfold canRetry, classify.
  destruct (strict_eq_lit code "timeout") eqn:E1; [reflexivity|].
  destruct (strict_eq_lit code "network") eqn:E2.
  { apply strict_eq_lit_eq in E2. subst code. reflexivity. }
  destruct (strict_eq_lit code "quota_exceeded") eqn:E3.
  { apply strict_eq_lit_eq in E3. subst code. reflexivity. }
  destruct (strict_eq_lit code "invalid_key") eqn:E4.
  { apply strict_eq_lit_eq in E4. subst code. reflexivity. }
  destruct (strict_eq_lit code "rate_limit") eqn:E5; [reflexivity|].
  destruct (strict_eq_lit code "context_length") eqn:E6.
  { reflexivity. }
  reflexivity.
Qed.

(** C4 (amended). The error class [network] is not retryable in the
    client: when a chat attempt fails with code [network] (the server
    cannot be reached, or its 200 answer is not JSON), [handleAPIError]
    marks the connection indicator offline, shows the error (as a
    transcript entry and in the banner), schedules no resend prompt and
    leaves the retry counter as it is, whatever the counter is. The
    classes that are retried are exactly [timeout], [rate_limit], an error
    whose code is none of the six the client knows and whose status is 500
    or more (such as [server_error]), and an error that is not an
    [APIError]; [quota_exceeded], [invalid_key], [context_length] and
    unknown codes below status 500 are not. For a retried class, while the
    retry counter is below [RETRY_ATTEMPTS], the counter goes up by one and
    one prompt to resend the same message is scheduled; otherwise nothing
    is scheduled and the counter stays. *)
Theorem network_error_not_retried now status text original st :
  let e := APIError status text (VString (lit "network")) in
  let st' := handleAPIError now e original st in
  sendToAPI FetchFailed = Threw network_error
  /\ sendToAPI (HttpOk None) = Threw network_error
  /\ canRetry e = false
  /\ timers st' = timers st
  /\ retryCount st' = retryCount st
  /\ connectionStatus st' = StatusOffline
  /\ canRetry (APIError status text (VString (lit "timeout"))) = true
  /\ canRetry (APIError status text (VString (lit "rate_limit"))) = true
  /\ canRetry (APIError status text (VString (lit "server_error")))
     = (status >=? 500)
  /\ canRetry OtherError = true
  /\ (forall e', canRetry e' = true -> retryCount st < RETRY_ATTEMPTS ->
        retryCount (handleAPIError now e' original st) = retryCount st + 1
        /\ timers (handleAPIError now e' original st)
           = timers st ++ [original])
  /\ (messages st'
      = messages st
        ++ [{| role := error;
               content := lit "Cannot connect to server. Please check if the backend is running.";
               timestamp := now; sources := [] |}]
      /\ errorMessage st'
         = lit "Cannot connect to server. Please check if the backend is running."
      /\ errorDisplay_hidden st' = false)
  /\ (forall status' text' code',
        canRetry (APIError status' text' code')
        = (strict_eq_lit code' "timeout" || strict_eq_lit code' "rate_limit"
           || (negb (strict_eq_lit code' "network"
                     || strict_eq_lit code' "quota_exceeded"
                     || strict_eq_lit code' "invalid_key"
                     || strict_eq_lit code' "context_length")
               && (status' >=? 500))))
  /\ (forall status' text',
        canRetry (APIError status' text' (VString (lit "quota_exceeded")))
        = false
        /\ canRetry (APIError status' text' (VString (lit "invalid_key")))
           = false
        /\ canRetry (APIError status' text'
                       (VString (lit "context_length"))) = false)
  /\ (forall e',
        canRetry e' = false \/ RETRY_ATTEMPTS <= retryCount st ->
        retryCount (handleAPIError now e' original st) = retryCount st
        /\ timers (handleAPIError now e' original st) = timers st).
Proof.
  cbv zeta.
  pose proof (handleAPIError_retry now
                (APIError status text (VString (lit "network")))
                original st) as R.
  cbv zeta in R.
  change (canRetry (APIError status text (VString (lit "network"))))
    with false in R.
  cbn [andb] in R. destruct R as [R1 R2].
  pose proof (handleAPIError_messages now
                (APIError status text (VString (lit "network")))
                original st) as M.
  cbv zeta in M. destruct M as (M1 & _ & M3 & M4).
  do 10 (split; [first [reflexivity | assumption
                        | rewrite handleAPIError_connection; reflexivity]|]).
  split; [|split; [|split; [|split]]].
  - intros e' H Hlt.
    pose proof (handleAPIError_retry now e' original st) as R.
    cbv zeta in R. rewrite H in R.
    replace (retryCount st <? RETRY_ATTEMPTS) with true in R
      by (symmetry; apply Z.ltb_lt; assumption).
    apply R.
  - split; [exact M1 | split; [exact M3 | exact M4]].
  - apply canRetry_by_code.
  - intros status' text'. repeat split.
  - intros e' H.
    pose proof (handleAPIError_retry now e' original st) as R.
    cbv zeta in R.
    replace (canRetry e' && (retryCount st <? RETRY_ATTEMPTS)) with false
      in R; [exact R|].
    symmetry. destruct H as [-> | H]; [reflexivity|].
    apply andb_false_iff. right. apply Z.ltb_ge. exact H.
Qed.

Lemma network_error_not_retried_witness :
  let st := page_load (lit "s1") in
  let e := APIError 408 (lit "Request timed out. Please try again.")
                    (VString (lit "timeout")) in
  retryCount st < RETRY_ATTEMPTS
  /\ timers (handleAPIError (lit "12:00") e question st) = [question].
Proof.
  cbv zeta. split; [reflexivity|].
  destruct (network_error_not_retried (lit "12:00") 0 [] question
              (page_load (lit "s1")))
    as (_ & _ & _ & _ & _ & _ & _ & _ & _ & _ & T & _).
  exact (proj2 (T (APIError 408 (lit "Request timed out. Please try again.")
                            (VString (lit "timeout")))
                  eq_refl eq_refl)).
Defined.

(** C4, as stated, fails: a first attempt that fails because the server
    cannot be reached has code [network]; the retry counter is 0, below
    the maximum, and yet no resend prompt is scheduled or shown and the
    counter stays at 0, whereas the same attempt timing out is prompted
    for. *)
Lemma network_failure_shows_no_prompt :
  let lost := run (at_noon (send_and_lose_connection ++ [RetryTimer true]))
                  (page_load (lit "s1")) in
  let timed_out := run (at_noon (send_and_time_out ++ [RetryTimer true]))
                       (page_load (lit "s1")) in
  sendToAPI FetchFailed
  = Threw (APIError 0 (lit "Cannot connect to server. Please check if the backend is running.")
                    (VString (lit "network")))
  /\ retryCount (page_load (lit "s1")) < RETRY_ATTEMPTS
  /\ snd lost = []
  /\ retryCount (fst lost) = 0
  /\ snd timed_out = [ConfirmRetry 1 question].
Proof.
  cbv zeta. repeat split; vm_compute; reflexivity.
Qed.

(** X19. The retry counter is bounded: after every sequence of client
    events it is at most [RETRY_ATTEMPTS] = 3. A failed attempt schedules
    at most one resend prompt, and a retry timer that fires shows exactly
    one dialog. A successful response resets the counter to zero. As long
    as no request succeeds in between, the resend prompts shown in a run
    are at most the timers pending at its start plus what is left of the
    counter; from the loaded page that is at most [RETRY_ATTEMPTS] prompts
    in all, hence at most that many for any single message. *)
Theorem retry_counter_bounded :
  RETRY_ATTEMPTS = 3
  /\ (forall trace st,
        retryCount st <= RETRY_ATTEMPTS ->
        retryCount (fst (run trace st)) <= RETRY_ATTEMPTS)
  /\ (forall trace session,
        retryCount (fst (run trace (page_load session))) <= RETRY_ATTEMPTS)
  /\ (forall now e st,
        pending (handleSendMessage_settled now (Threw e) st)
        <= pending st + 1)
  /\ (forall now answer st,
        retry_prompts (snd (retryPrompt now answer st))
        + pending (fst (retryPrompt now answer st)) = pending st
        /\ retry_prompts (snd (retryPrompt now answer st)) <= 1)
  /\ (forall now r st,
        inflight st <> [] ->
        retryCount (handleSendMessage_settled now (Returned r) st) = 0)
  /\ (forall trace session m,
        no_success trace = true ->
        retry_prompts_for m (snd (run trace (page_load session)))
        <= RETRY_ATTEMPTS)
  /\ (forall trace st,
        no_success trace = true -> retryCount st <= RETRY_ATTEMPTS ->
        retry_prompts (snd (run trace st))
        <= pending st + (RETRY_ATTEMPTS - retryCount st))
  /\ (forall trace session,
        no_success trace = true ->
        retry_prompts (snd (run trace (page_load session)))
        <= RETRY_ATTEMPTS).
Proof.
  split; [reflexivity|].
  split; [intros trace st H; apply run_bounded, H|].
  split; [intros trace session; apply run_bounded; discriminate|].
  split; [|split; [|split; [|split; [|split]]]].
  5: { intros trace st H1 H2. apply run_prompts_bounded; assumption. }
  5: { intros trace session H.
       pose proof (run_prompts_bounded trace (page_load session) H) as B.
       unfold pending in B.
       cbn [page_load timers retryCount List.length] in B.
       apply B. discriminate. }
  - intros now e st. unfold pending, handleSendMessage_settled.
    destruct (inflight st) as [|m rest]; [lia|]. fields.
    pose proof (handleAPIError_retry now e m
                  (hideTypingIndicator (set_inflight rest st))) as R.
    cbv zeta in R. fields.
    destruct (canRetry e && (retryCount st <? RETRY_ATTEMPTS));
      destruct R as [_ ->]; [|lia].
    rewrite length_app. cbn [List.length]. lia.
  - intros now answer st. unfold pending, retryPrompt.
    destruct (timers st) as [|m rest] eqn:Ht.
    { cbn [fst snd retry_prompts]. rewrite Ht. cbn [List.length]. lia. }
    destruct answer; cbn [fst snd retry_prompts].
    + destruct (handleSendMessage_frame now
                  (handleInputChange
                     (set_messageInput m (set_timers rest st))))
        as (_ & -> & _).
      fields. cbn [List.length]. lia.
    + fields. cbn [List.length]. lia.
  - intros now r st H. unfold handleSendMessage_settled.
    destruct (inflight st) as [|m rest]; [congruence|]. reflexivity.
  - intros trace session m H.
    pose proof (run_prompts_bounded trace (page_load session) H) as B.
    pose proof (retry_prompts_for_le m
                  (snd (run trace (page_load session)))) as L.
    unfold pending in B. cbn [page_load timers retryCount List.length] in B.
    assert (0 <= RETRY_ATTEMPTS) by discriminate. lia.
Qed.

Lemma retry_counter_bounded_witness :
  no_success (at_noon retried_to_the_end) = true
  /\ retry_prompts_for question
       (snd (run (at_noon retried_to_the_end) (page_load (lit "s1"))))
     <= RETRY_ATTEMPTS
  /\ retryCount (fst (run (at_noon retried_to_the_end)
                          (page_load (lit "s1")))) <= RETRY_ATTEMPTS.
Proof.
  destruct retry_counter_bounded as (_ & _ & B & _ & _ & _ & P & _).
  split; [reflexivity|]. split.
  - apply P. reflexivity.
  - apply B.
Defined.

(** C8. The cap on resend prompts is missed when requests interleave: the
    retry counter is one counter for all messages and the success of any
    of them resets it. The user types the question once; each time it has
    timed out, another question is sent and answered before the retry
    timer fires, and the user confirms the retry. The question is prompted
    for resend four times, more than [RETRY_ATTEMPTS], every dialog
    reading "Retry attempt 0/3", while the counter never exceeds 1. *)
Theorem one_message_prompted_four_times :
  let final := run (at_noon interleaved_run) (page_load (lit "s1")) in
  typed question (at_noon interleaved_run) = 1
  /\ retry_prompts_for question (snd final) = 4
  /\ RETRY_ATTEMPTS < retry_prompts_for question (snd final)
  /\ retryCount (fst final) = 1
  /\ snd final = [ConfirmRetry 0 question; ConfirmRetry 0 question;
                  ConfirmRetry 0 question; ConfirmRetry 0 question].
Proof.
  cbv zeta. repeat split; vm_compute; reflexivity.
Qed.

(** C9 (amended). Sending a chat message leaves the connection indicator
    alone in every step but one: the handling of an error with code
    [network] sets the indicator to offline. Submitting, a successful
    answer, every other error branch and the retry dialog do not touch
    it. Health polling changes nothing but the connection indicator: the
    transcript (messages and container), the loading flag and the retry
    counter keep their values. *)
Theorem chat_and_health_frames now st :
  connectionStatus (handleSendMessage now st) = connectionStatus st
  /\ (forall r, connectionStatus
                  (handleSendMessage_settled now (Returned r) st)
                = connectionStatus st)
  /\ (forall e, connectionStatus
                  (handleSendMessage_settled now (Threw e) st)
                = match inflight st with
                  | [] => connectionStatus st
                  | _ :: _ => if snd (classify e) then StatusOffline
                              else connectionStatus st
                  end)
  /\ (forall e, snd (classify e) = true <->
                exists status text,
                  e = APIError status text (VString (lit "network")))
  /\ (forall answer, connectionStatus (fst (retryPrompt now answer st))
                     = connectionStatus st)
  /\ (forall h, let st' := checkBackendHealth h st in
                messages st' = messages st
                /\ messagesContainer st' = messagesContainer st
                /\ isLoading st' = isLoading st
                /\ retryCount st' = retryCount st).
Proof.
  split; [apply handleSendMessage_frame|].
  split; [|split; [|split; [|split]]].
  - intros r. unfold handleSendMessage_settled.
    destruct (inflight st); reflexivity.
  - intros e. unfold handleSendMessage_settled.
    destruct (inflight st) as [|m rest]; [reflexivity|]. fields.
    rewrite handleAPIError_connection. reflexivity.
  - apply classify_offline.
  - intros answer. unfold retryPrompt.
    destruct (timers st) as [|m rest]; [reflexivity|].
    destruct answer; [|reflexivity]. cbn [fst].
    rewrite (proj2 (proj2 (handleSendMessage_frame now _))). reflexivity.
  - intros h. cbv zeta. destruct h as [|[|]]; repeat split.
Qed.

(** C9, as stated, fails: with the indicator online after a health check,
    sending a message leaves it online, and the handling of the failed
    request (the server cannot be reached) turns it offline. *)
Lemma network_error_sets_indicator_offline :
  let sending :=
    fst (run (at_noon [HealthSettled (HealthResponded true);
                       Input question; ClickSend])
             (page_load (lit "s1"))) in
  let failed :=
    fst (step (lit "2024-01-01T12:00:00.000Z")
              (ChatSettled (sendToAPI FetchFailed)) sending) in
  connectionStatus sending = StatusOnline
  /\ inflight sending = [question]
  /\ connectionStatus failed = StatusOffline
  /\ connectionStatus failed <> connectionStatus sending.
Proof.
  cbv zeta. repeat split; try (vm_compute; reflexivity).
  vm_compute. discriminate.
Qed.

End ClientClaims.

(* ================================================================== *)
(** ** More about [trim]                                              *)
(* ================================================================== *)

Section TrimIdempotent.

Lemma trimStart_snoc (l : js_string) (c : N) :
  is_white_space c = false -> trimStart (l ++ [c]) = trimStart l ++ [c].
Proof.
  intros Hc. induction l as [|x l IH]; cbn [app trimStart].
  - rewrite Hc. reflexivity.
  - destruct (is_white_space x); [exact IH | reflexivity].
Qed.

Lemma trimStart_head (s : js_string) :
  trimStart s = [] \/
  exists c t, trimStart s = c :: t /\ is_white_space c = false.
Proof.
  induction s as [|x s IH]; cbn [trimStart]; [left; reflexivity|].
  destruct (is_white_space x) eqn:E; [exact IH|].
  right. exists x, s. split; [reflexivity | exact E].
Qed.

Lemma trimStart_fixed (c : N) (t : js_string) :
  is_white_space c = false -> trimStart (c :: t) = c :: t.
Proof. intros H. cbn [trimStart]. rewrite H. reflexivity. Qed.

Lemma trimStart_idempotent (s : js_string) :
  trimStart (trimStart s) = trimStart s.
Proof.
  destruct (trimStart_head s) as [-> | (c & t & -> & Hc)];
    [reflexivity | apply trimStart_fixed, Hc].
Qed.

Lemma trimEnd_head (c : N) (t : js_string) :
  is_white_space c = false ->
  trimEnd (c :: t) = c :: trimEnd t.
Proof.
  intros Hc. unfold trimEnd. cbn [rev].
  rewrite (trimStart_snoc (rev t) c Hc), rev_app_distr. reflexivity.
Qed.

Lemma trimEnd_idempotent (s : js_string) : trimEnd (trimEnd s) = trimEnd s.
Proof.
  unfold trimEnd. rewrite rev_involutive, trimStart_idempotent. reflexivity.
Qed.

(** Trimming twice is trimming once. *)
Lemma trim_idempotent (s : js_string) : trim (trim s) = trim s.
Proof.
  unfold trim.
  destruct (trimStart_head s) as [-> | (c & t & -> & Hc)]; [reflexivity|].
  rewrite (trimEnd_head c t Hc), (trimStart_fixed c (trimEnd t) Hc).
  rewrite <- (trimEnd_head c t Hc). apply trimEnd_idempotent.
Qed.

Lemma strlen_pos (s : js_string) : s <> [] -> 0 < strlen s.
Proof. destruct s; [congruence | unfold strlen; cbn [List.length]; lia]. Qed.

Lemma strlen_nil_iff (s : js_string) : strlen s = 0 <-> s = [].
Proof. split; [apply strlen_zero | intros ->; reflexivity]. Qed.

End TrimIdempotent.

(* ================================================================== *)
(** ** More properties of the relay server                            *)
(* ================================================================== *)

Module RelayFacts.
Import Server ServerFacts Relay.

Lemma dev_flag env :
  strict_eq_lit (env_value (NODE_ENV env)) "development" = true
  <-> NODE_ENV env = Some (lit "development").
Proof.
  rewrite strict_eq_lit_eq. destruct (NODE_ENV env); cbn [env_value];
    split; intros H; try discriminate; congruence.
Qed.

Lemma dev_flag_off env :
  NODE_ENV env <> Some (lit "development") ->
  strict_eq_lit (env_value (NODE_ENV env)) "development" = false.
Proof.
  intros H. destruct (strict_eq_lit _ _) eqn:E; [|reflexivity].
  apply dev_flag in E. contradiction.
Qed.

(** X1. The downstream endpoint is consulted only for a message that passed
    both checks with the client configured, and then only at the trimmed
    message: otherwise the answer is the same whatever the endpoint is. *)
Theorem chat_downstream_use env req :
  (passes_validation (message req) && openai env = false ->
   forall create create', chat env create req = chat env create' req)
  /\ (forall create create',
        create (trim (text_of (message req)))
        = create' (trim (text_of (message req))) ->
        chat env create req = chat env create' req).
Proof.
  split.
  - intros H create create'. rewrite !chat_by_cases.
    destruct (passes_validation (message req)); [|reflexivity].
    cbn [andb] in H. rewrite H. reflexivity.
  - intros create create' H. rewrite !chat_by_cases, H. reflexivity.
Qed.

Lemma chat_downstream_use_witness :
  chat env_unconfigured always_replies
       {| message := VString question; sessionId := VUndefined |}
  = chat env_unconfigured (fun _ => Throws {| err_code := VUndefined;
                                              err_message := [] |})
         {| message := VString question; sessionId := VUndefined |}.
Proof.
  apply (proj1 (chat_downstream_use env_unconfigured
                  {| message := VString question;
                     sessionId := VUndefined |})).
  reflexivity.
Defined.

Lemma not_configured_answer env create req :
  chat env create req = {| status := 500; body := not_configured_error |}
  <-> passes_validation (message req) = true /\ openai env = false.
Proof.
  rewrite chat_by_cases. split.
  - destruct (passes_validation (message req)).
    + destruct (openai env); [|auto].
      intros H. exfalso. apply (f_equal body) in H. cbn [body] in H.
      destruct (to_string_throws (sessionId req));
        [exact (proj2 (proj2 (chat_catch_body env cannot_convert)) H)|].
      destruct (create (trim (text_of (message req)))) as [reply|e];
        [discriminate|].
      exact (proj2 (proj2 (chat_catch_body env e)) H).
    + destruct (negb (truthy (message req)) || negb (is_string (message req))
                || (strlen (trim (text_of (message req))) =? 0));
        discriminate.
  - intros [-> ->]. reflexivity.
Qed.

(** X2. The "not configured" answer, HTTP 500 without a code, is given exactly
    to the requests that pass the input checks while the credential is
    missing: validation comes first, and no downstream fault produces
    it. *)
Theorem chat_not_configured_iff env create req :
  chat env create req = {| status := 500; body := not_configured_error |}
  <-> passes_validation (message req) = true /\ openai env = false.
Proof. apply not_configured_answer. Qed.

(** X3. Diagnostic detail is gated behind the development flag: unless
    [NODE_ENV] is exactly "development", no response of the chat handler or
    of the global error handler has a [details] field, and the responses to
    a fault do not depend on the fault's message at all. With the flag, the
    message is passed on for unmapped faults only. *)
Theorem details_only_in_development env e :
  (NODE_ENV env <> Some (lit "development") ->
   (forall create req, get "details" (body (chat env create req)) = None)
   /\ get "details" (body (error_handler env e)) = None
   /\ (forall text,
         chat_catch env {| err_code := err_code e; err_message := text |}
         = chat_catch env e)
   /\ (forall text,
         error_handler env {| err_code := err_code e; err_message := text |}
         = error_handler env e))
  /\ (NODE_ENV env = Some (lit "development") ->
      get "details" (body (error_handler env e))
      = Some (VString (err_message e))
      /\ get "details" (body (chat_catch env e))
         = if is_mapped (err_code e) then None
           else Some (VString (err_message e))).
Proof.
  split.
  - intros H. apply dev_flag_off in H.
    assert (C : forall e', get "details" (body (chat_catch env e')) = None).
    { intros e'. unfold chat_catch. rewrite H.
      repeat (destruct (strict_eq_lit (err_code e') _); [reflexivity|]).
      reflexivity. }
    repeat split.
    + intros create req. rewrite chat_by_cases.
      destruct (passes_validation (message req)).
      * destruct (openai env); [|reflexivity].
        destruct (to_string_throws (sessionId req)); [apply C|].
        destruct (create _) as [reply|e']; [reflexivity | apply C].
      * destruct (negb (truthy (message req)) || _ || _); reflexivity.
    + unfold error_handler. rewrite H. reflexivity.
    + intros text. unfold chat_catch. rewrite H. reflexivity.
    + intros text. unfold error_handler. rewrite H. reflexivity.
  - intros H. apply dev_flag in H. split.
    + unfold error_handler. rewrite H. reflexivity.
    + unfold chat_catch, is_mapped, mapped_codes. cbn [existsb].
      rewrite H.
      repeat (destruct (strict_eq_lit (err_code e) _); [reflexivity|]).
      reflexivity.
Qed.

Lemma details_only_in_development_witness :
  get "details"
      (body (chat_catch env_configured
               {| err_code := VUndefined;
                  err_message := lit "connect ECONNREFUSED" |})) = None.
Proof.
  destruct (details_only_in_development env_configured
              {| err_code := VUndefined;
                 err_message := lit "connect ECONNREFUSED" |}) as [H _].
  destruct (H ltac:(discriminate)) as (_ & _ & H3 & _).
  rewrite <- (H3 []). reflexivity.
Defined.

(** X4. White space around a message that is within the length limit makes no
    difference: the answer is the answer to the trimmed message. *)
Theorem chat_ignores_padding env create sid m :
  strlen m <= 4000 ->
  chat env create {| message := VString m; sessionId := sid |}
  = chat env create {| message := VString (trim m); sessionId := sid |}.
Proof.
  intros H. pose proof (trim_strlen_le m) as Hle.
  destruct (trim m) as [|c t] eqn:E.
  - rewrite (chat_blank env create m sid E).
    symmetry. apply chat_blank. reflexivity.
  - assert (Hpos : 0 < strlen (trim m))
      by (rewrite E; apply strlen_pos; discriminate).
    rewrite <- E. rewrite !chat_by_cases. cbn [message sessionId text_of].
    rewrite trim_idempotent.
    rewrite (string_passes_validation m Hpos H).
    rewrite (string_passes_validation (trim m));
      rewrite ?trim_idempotent; try assumption;
      try (pose proof (trim_strlen_le m); lia).
    reflexivity.
Qed.

Lemma chat_ignores_padding_witness :
  chat env_configured always_replies
       {| message := VString (32%N :: question ++ [10%N]);
          sessionId := VUndefined |}
  = chat env_configured always_replies
         {| message := VString question; sessionId := VUndefined |}.
Proof.
  rewrite (chat_ignores_padding env_configured always_replies VUndefined
             (32%N :: question ++ [10%N]));
    [reflexivity | vm_compute; discriminate].
Defined.

Lemma health_configured_field env :
  get "openai_configured" (body (health env))
  = Some (VBool (truthy (env_value (OPENAI_API_KEY env)))).
Proof.
  unfold health, json, json_object, or_else. rewrite negb_involutive.
  destruct (NODE_ENV env) as [[|c n]|]; reflexivity.
Qed.

Lemma openai_needs_key env :
  openai env = true -> truthy (env_value (OPENAI_API_KEY env)) = true.
Proof.
  unfold openai. destruct (OPENAI_API_KEY env) as [key|]; [|discriminate].
  cbn [env_value]. intros H. apply andb_true_iff in H. apply H.
Qed.

(** X5. The health report reads the key itself, the chat operation uses the
    client built from it at start-up. Whenever health reports
    [openai_configured] false, a request that passes the input checks is
    answered "not configured"; whenever such a request gets any other
    answer, health reports true. The two agree exactly, provided the
    constructor returned at start-up; had it thrown for a key that is set,
    health reports true while chat answers "not configured". *)
Theorem health_agrees_with_chat env create req :
  passes_validation (message req) = true ->
  (get "openai_configured" (body (health env)) = Some (VBool false) ->
   chat env create req = {| status := 500; body := not_configured_error |})
  /\ (chat env create req
      <> {| status := 500; body := not_configured_error |} ->
      get "openai_configured" (body (health env)) = Some (VBool true))
  /\ (forall key,
        OPENAI_API_KEY env = Some key -> new_OpenAI env key = true ->
        (get "openai_configured" (body (health env)) = Some (VBool false)
         <-> chat env create req
             = {| status := 500; body := not_configured_error |}))
  /\ (forall key,
        OPENAI_API_KEY env = Some key -> key <> [] ->
        new_OpenAI env key = false ->
        get "openai_configured" (body (health env)) = Some (VBool true)
        /\ chat env create req
           = {| status := 500; body := not_configured_error |}).
Proof.
  intros Hv. rewrite health_configured_field.
  split; [|split; [|split]].
  - intros H. injection H as H. apply not_configured_answer.
    split; [exact Hv|].
    destruct (openai env) eqn:Hc; [|reflexivity].
    apply openai_needs_key in Hc. congruence.
  - intros H. destruct (truthy (env_value (OPENAI_API_KEY env))) eqn:Hk;
      [reflexivity|].
    exfalso. apply H, not_configured_answer. split; [exact Hv|].
    destruct (openai env) eqn:Hc; [|reflexivity].
    apply openai_needs_key in Hc. congruence.
  - intros key Hk Hn. rewrite not_configured_answer. unfold openai.
    rewrite Hk, Hn, andb_true_r. cbn [env_value]. split.
    + intros H. injection H as H. auto.
    + intros [_ ->]. reflexivity.
  - intros key Hk Hne Hn. split.
    + rewrite Hk. destruct key; [congruence | reflexivity].
    + apply not_configured_answer. split; [exact Hv|].
      unfold openai. rewrite Hk, Hn. apply andb_false_r.
Qed.

Lemma health_agrees_with_chat_witness :
  chat env_unconfigured always_replies
       {| message := VString question; sessionId := VUndefined |}
  = {| status := 500; body := not_configured_error |}.
Proof.
  apply (proj1 (health_agrees_with_chat env_unconfigured always_replies
                  {| message := VString question; sessionId := VUndefined |}
                  ltac:(vm_compute; reflexivity))).
  reflexivity.
Defined.

Lemma is_mapped_false code :
  is_mapped code = false ->
  strict_eq_lit code "insufficient_quota" = false
  /\ strict_eq_lit code "invalid_api_key" = false
  /\ strict_eq_lit code "rate_limit_exceeded" = false
  /\ strict_eq_lit code "context_length_exceeded" = false.
Proof.
  unfold is_mapped, mapped_codes. cbn [existsb]. intros H.
  repeat (apply orb_false_iff in H as [? H]). auto.
Qed.

(** X6. The mapping of downstream faults, read backwards: 401 is sent for the
    code [invalid_api_key] and for no other, 429 for [insufficient_quota]
    and [rate_limit_exceeded], 400 for [context_length_exceeded], and 500
    with the code [server_error] for everything else, a fault without a
    code or with a code that is not a string included. *)
Theorem chat_catch_status env e :
  (status (chat_catch env e) = 401
   <-> err_code e = VString (lit "invalid_api_key"))
  /\ (status (chat_catch env e) = 429
      <-> err_code e = VString (lit "insufficient_quota")
          \/ err_code e = VString (lit "rate_limit_exceeded"))
  /\ (status (chat_catch env e) = 400
      <-> err_code e = VString (lit "context_length_exceeded"))
  /\ (status (chat_catch env e) = 500 <-> is_mapped (err_code e) = false)
  /\ (is_mapped (err_code e) = false <->
      get "code" (body (chat_catch env e))
      = Some (VString (lit "server_error"))).
Proof.
  destruct e as [code text]. cbn [err_code].
  unfold chat_catch, is_mapped, mapped_codes. cbn [existsb err_code err_message].
  destruct (strict_eq_lit code "insufficient_quota") eqn:E1.
  { apply strict_eq_lit_eq in E1. subst code.
    repeat split; intros H; try discriminate; auto;
      destruct H; discriminate. }
  destruct (strict_eq_lit code "invalid_api_key") eqn:E2.
  { apply strict_eq_lit_eq in E2. subst code.
    repeat split; intros H; try discriminate; auto;
      destruct H; discriminate. }
  destruct (strict_eq_lit code "rate_limit_exceeded") eqn:E3.
  { apply strict_eq_lit_eq in E3. subst code.
    repeat split; intros H; try discriminate; auto;
      destruct H; discriminate. }
  destruct (strict_eq_lit code "context_length_exceeded") eqn:E4.
  { apply strict_eq_lit_eq in E4. subst code.
    repeat split; intros H; try discriminate; auto;
      destruct H; discriminate. }
  assert (D : forall s, strict_eq_lit code s = false ->
                        code <> VString (lit s)).
  { intros s Hs Hc. apply strict_eq_lit_eq in Hc. congruence. }
  destruct (strict_eq_lit (env_value (NODE_ENV env)) "development");
    cbn [orb status json];
    (repeat split; intros H; try discriminate; try reflexivity;
     try (exfalso; (eapply D; [|exact H]); assumption);
     destruct H as [H|H]; exfalso; (eapply D; [|exact H]); assumption).
Qed.

(** X7. The preview written to the log is never longer than 103 code units: a
    text of at most 100 is logged whole, a longer one is cut to its first
    100 code units followed by three dots. *)
Theorem log_preview_bounded s :
  strlen (log_preview s) <= 103
  /\ (strlen s <= 100 -> log_preview s = s)
  /\ (100 < strlen s ->
      log_preview s = firstn 100 s ++ lit "..."
      /\ strlen (log_preview s) = 103).
Proof.
  unfold log_preview, strlen.
  destruct (Z.gtb_spec (Z.of_nat (List.length s)) 100) as [Hgt|Hle].
  - rewrite length_app, length_firstn. cbn [lit List.length map list_ascii_of_string].
    repeat split; try lia.
  - rewrite length_app, length_firstn. cbn [lit List.length map list_ascii_of_string].
    repeat split; try lia.
    intros _. rewrite app_nil_r. apply firstn_all2. lia.
Qed.

Lemma log_preview_bounded_witness :
  log_preview letters_4000 = firstn 100 letters_4000 ++ lit "..."
  /\ log_preview question = question.
Proof.
  split.
  - apply (proj2 (proj2 (log_preview_bounded letters_4000))).
    vm_compute. reflexivity.
  - apply (proj1 (proj2 (log_preview_bounded question))).
    vm_compute. discriminate.
Defined.

Lemma chat_catch_is_error env e :
  status (chat_catch env e) <> 200
  /\ get "reply" (body (chat_catch env e)) = None
  /\ exists text, get "error" (body (chat_catch env e)) = Some (VString text)
                  /\ text <> [].
Proof.
  unfold chat_catch.
  repeat (destruct (strict_eq_lit (err_code e) _);
          [repeat split; [discriminate|];
           eexists; split; [reflexivity | discriminate]|]).
  destruct (strict_eq_lit (env_value (NODE_ENV env)) "development");
    (repeat split; [discriminate|]);
    eexists; (split; [reflexivity | discriminate]).
Qed.

(** X8. Every answer of the chat operation is either a success or an error,
    never a mixture: with status 200 it carries the reply text, an empty
    list of sources and the time stamp, and no [error]; with any other
    status it carries a non-empty [error] text and no [reply]. *)
Theorem chat_reply_or_error env create req :
  let r := chat env create req in
  (status r = 200
   /\ (exists text, get "reply" (body r) = Some (VString text))
   /\ get "sources" (body r) = Some (VArray [])
   /\ get "timestamp" (body r) = Some (VString (now env))
   /\ get "error" (body r) = None)
  \/ (status r <> 200
      /\ get "reply" (body r) = None
      /\ exists text, get "error" (body r) = Some (VString text)
                      /\ text <> []).
Proof.
  cbv zeta. rewrite chat_by_cases.
  destruct (passes_validation (message req)).
  - destruct (openai env).
    + destruct (to_string_throws (sessionId req));
        [right; apply chat_catch_is_error|].
      destruct (create (trim (text_of (message req)))) as [reply|e].
      * left. repeat split. exists reply. reflexivity.
      * right. apply chat_catch_is_error.
    + right. repeat split; [discriminate|].
      eexists. split; [reflexivity | discriminate].
  - right.
    destruct (negb (truthy (message req)) || negb (is_string (message req))
              || (strlen (trim (text_of (message req))) =? 0));
      (repeat split; [discriminate|]);
      eexists; (split; [reflexivity | discriminate]).
Qed.

End RelayFacts.

(* ================================================================== *)
(** ** Invariants of the chat client                                  *)
(* ================================================================== *)

Module PageFacts.
Import Client ClientFacts ClientRuns Page.

(** *** One request at a time *)

Lemma handleSendMessage_one now st :
  one_at_a_time st -> one_at_a_time (handleSendMessage now st).
Proof.
  unfold one_at_a_time, handleSendMessage. intros H.
  destruct ((strlen (trim (messageInput st)) =? 0) || isLoading st) eqn:G;
    [exact H|].
  apply orb_false_iff in G as [_ G].
  destruct H as [(_ & Hi & _) | (Hl & _)]; [|congruence].
  right. fields. rewrite Hi. repeat split. eexists; reflexivity.
Qed.

Lemma step_one now ev st :
  one_at_a_time st -> one_at_a_time (fst (step now ev st)).
Proof.
  intros H. destruct ev as [v| | |s|answer|answer| |h|]; cbn [step].
  - exact H.
  - destruct (sendButton_disabled st); cbn [fst];
      [exact H | apply handleSendMessage_one, H].
  - destruct (sendButton_disabled st); cbn [fst];
      [exact H | apply handleSendMessage_one, H].
  - cbn [fst]. unfold handleSendMessage_settled.
    destruct (inflight st) as [|m rest] eqn:Hi; [exact H|].
    assert (rest = []) as ->.
    { destruct H as [(_ & H & _) | (_ & [m' H] & _)]; congruence. }
    left. destruct s as [r|e]; fields; [auto|].
    destruct (handleAPIError_frame now e m
                (hideTypingIndicator (set_inflight [] st)))
      as (_ & -> & -> & _).
    fields. auto.
  - unfold retryPrompt. destruct (timers st) as [|m rest]; [exact H|].
    destruct answer; cbn [fst]; [|exact H].
    apply handleSendMessage_one. exact H.
  - unfold handleClearChat.
    destruct (Z.of_nat (List.length (messages st)) =? 0); [exact H|].
    destruct answer; exact H.
  - exact H.
  - cbn [fst]. destruct h as [|[|]]; exact H.
  - exact H.
Qed.

Lemma run_invariant (P : State -> Prop) :
  (forall now ev st, P st -> P (fst (step now ev st))) ->
  forall trace st, P st -> P (fst (run trace st)).
Proof.
  intros Hstep. induction trace as [|[now ev] rest IH]; intros st H;
    [exact H|].
  rewrite run_cons. cbn [fst]. apply IH, Hstep, H.
Qed.

(** X9. From the loaded page, whatever happens, at most one chat request is
    awaited at any time; the loading flag is up exactly while one is, and
    the typing indicator is shown exactly then. *)
Theorem one_request_at_a_time trace session :
  let st := fst (run trace (page_load session)) in
  (List.length (inflight st) <= 1)%nat
  /\ (isLoading st = true <-> inflight st <> [])
  /\ typingIndicator_hidden st = negb (isLoading st).
Proof.
  cbv zeta.
  assert (H : one_at_a_time (fst (run trace (page_load session)))).
  { apply (run_invariant one_at_a_time step_one).
    left. repeat split. }
  destruct H as [(Hl & Hi & Ht) | (Hl & [m Hi] & Ht)];
    rewrite Hl, Hi, Ht; cbn [List.length negb]; repeat split;
    try lia; try discriminate; congruence.
Qed.

(** *** The container shows the transcript *)









(** *** Only sendable messages leave the page *)

Lemma handleInputChange_guard st :
  sendButton_disabled (handleInputChange st) = false ->
  0 < strlen (trim (messageInput st))
  /\ strlen (messageInput st) <= MAX_MESSAGE_LENGTH.
Proof.
  fields. intros H. apply negb_false_iff in H.
  apply andb_true_iff in H as [H _].
  apply andb_true_iff in H as [H1 H2].
  rewrite Z.gtb_ltb in H1. apply Z.ltb_lt in H1. apply Z.leb_le in H2.
  auto.
Qed.

Lemma handleInputChange_sendable st :
  Forall sendable (inflight st) -> Forall sendable (timers st) ->
  only_sendable (handleInputChange st).
Proof.
  intros Hi Ht. unfold only_sendable. split.
  - intros H. apply handleInputChange_guard in H. fields. exact H.
  - fields. split; assumption.
Qed.

Lemma trimmed_sendable v :
  0 < strlen (trim v) -> strlen (trim v) <= MAX_MESSAGE_LENGTH ->
  sendable (trim v).
Proof.
  intros H1 H2. repeat split; try assumption. apply trim_idempotent.
Qed.

Lemma handleSendMessage_sendable now st :
  only_sendable st ->
  strlen (trim (messageInput st)) <= MAX_MESSAGE_LENGTH ->
  only_sendable (handleSendMessage now st).
Proof.
  intros (Hb & Hi & Ht) Hlen. unfold handleSendMessage.
  destruct ((strlen (trim (messageInput st)) =? 0) || isLoading st) eqn:G;
    [exact (conj Hb (conj Hi Ht))|].
  apply orb_false_iff in G as [G _]. apply Z.eqb_neq in G.
  pose proof (strlen_nonneg (trim (messageInput st))).
  unfold only_sendable. fields.
  split; [change (trim []) with (@nil N); discriminate|].
  split; [|exact Ht].
  apply Forall_app. split; [exact Hi|].
  constructor; [|constructor]. apply trimmed_sendable; lia.
Qed.

Lemma step_sendable now ev st :
  only_sendable st -> only_sendable (fst (step now ev st)).
Proof.
  intros H. pose proof H as (Hb & Hi & Ht).
  destruct ev as [v| | |s|answer|answer| |h|]; cbn [step].
  - cbn [fst]. apply (handleInputChange_sendable (set_messageInput v st));
      assumption.
  - destruct (sendButton_disabled st) eqn:D; cbn [fst]; [exact H|].
    apply handleSendMessage_sendable; [exact H|].
    pose proof (trim_strlen_le (messageInput st)).
    destruct (Hb eq_refl). lia.
  - destruct (sendButton_disabled st) eqn:D; cbn [fst]; [exact H|].
    apply handleSendMessage_sendable; [exact H|].
    pose proof (trim_strlen_le (messageInput st)).
    destruct (Hb eq_refl). lia.
  - cbn [fst]. unfold handleSendMessage_settled.
    destruct (inflight st) as [|m rest] eqn:E; [exact H|].
    inversion Hi as [|m' rest' Hm Hrest]; subst.
    destruct s as [r|e].
    + apply (handleInputChange_sendable
               (set_isLoading false
                  (set_retryCount 0
                     (addMessage now assistant (reply r) (reply_sources r)
                        (hideTypingIndicator (set_inflight rest st))))));
        assumption.
    + apply handleInputChange_sendable; fields.
      * destruct (handleAPIError_frame now e m
                    (hideTypingIndicator (set_inflight rest st)))
          as (_ & -> & _).
        exact Hrest.
      * destruct (handleAPIError_timers now e m
                    (hideTypingIndicator (set_inflight rest st)))
          as [-> | ->]; fields; [exact Ht|].
        apply Forall_app. split; [exact Ht|]. constructor; [exact Hm|].
        constructor.
  - unfold retryPrompt. destruct (timers st) as [|m rest] eqn:E; [exact H|].
    inversion Ht as [|m' rest' Hm Hrest]; subst.
    destruct answer; cbn [fst].
    + apply handleSendMessage_sendable.
      * apply (handleInputChange_sendable
                 (set_messageInput m (set_timers rest st))); assumption.
      * fields. destruct Hm as (_ & Hm & ->). exact Hm.
    + split; [exact Hb|]. split; assumption.
  - unfold handleClearChat.
    destruct (Z.of_nat (List.length (messages st)) =? 0); [exact H|].
    destruct answer; exact H.
  - exact H.
  - cbn [fst]. destruct h as [|[|]]; exact H.
  - exact H.
Qed.

(** X11. From the loaded page, whatever the user types and however requests
    end, every message the client has in flight or holds for a retry is
    trimmed, not empty and at most [MAX_MESSAGE_LENGTH] long. The relay
    therefore never answers a request of the page with one of its two
    validation errors: it hands the message as it is to the downstream
    endpoint, or reports the missing credential. *)
Theorem page_sends_only_valid_messages trace session m :
  let st := fst (run trace (page_load session)) in
  In m (inflight st) \/ In m (timers st) ->
  sendable m
  /\ forall env create,
       Server.chat env create
         {| Server.message := VString m;
            Server.sessionId := VString (sessionId st) |}
       = if Server.openai env then
           match create m with
           | Server.Reply text =>
               {| Server.status := 200;
                  Server.body :=
                    Server.chat_reply env text
                      (or_else (VString (sessionId st)) Server.anonymous) |}
           | Server.Throws e => Server.chat_catch env e
           end
         else {| Server.status := 500;
                 Server.body := Server.not_configured_error |}.
Proof.
  cbv zeta. intros Hin.
  assert (H : only_sendable (fst (run trace (page_load session)))).
  { apply (run_invariant only_sendable step_sendable).
    split; [discriminate|]. split; constructor. }
  destruct H as (_ & Hi & Ht).
  assert (Hm : sendable m).
  { destruct Hin as [Hin|Hin];
      [exact (proj1 (Forall_forall _ _) Hi m Hin)
      | exact (proj1 (Forall_forall _ _) Ht m Hin)]. }
  split; [exact Hm|].
  destruct Hm as (H1 & H2 & H3). intros env create.
  rewrite ServerFacts.chat_by_cases.
  cbn [Server.message Server.sessionId Server.text_of to_string_throws].
  rewrite ServerFacts.string_passes_validation;
    rewrite ?H3; try assumption.
  rewrite ServerFacts.json_value_or_else_string.
  reflexivity.
Qed.

Lemma page_sends_only_valid_messages_witness :
  sendable question.
Proof.
  apply (page_sends_only_valid_messages
           (at_noon [Input (32%N :: question ++ [32%N]); ClickSend])
           (lit "s1") question).
  left. vm_compute. left. reflexivity.
Defined.

(** *** The transcript only grows *)

Lemma handleSendMessage_appends now st :
  exists added, messages (handleSendMessage now st) = messages st ++ added
                /\ (List.length added <= 1)%nat.
Proof.
  unfold handleSendMessage.
  destruct ((strlen (trim (messageInput st)) =? 0) || isLoading st).
  - exists []. rewrite app_nil_r. auto.
  - eexists. fields. split; [reflexivity | cbn; lia].
Qed.

Lemma step_appends now ev st :
  ev <> ClickClear true ->
  exists added, messages (fst (step now ev st)) = messages st ++ added
                /\ (List.length added <= 1)%nat.
Proof.
  intros Hev.
  assert (Same : exists added, messages st = messages st ++ added
                               /\ (List.length added <= 1)%nat)
    by (exists []; rewrite app_nil_r; auto).
  destruct ev as [v| | |s|answer|answer| |h|]; cbn [step].
  - exact Same.
  - destruct (sendButton_disabled st); cbn [fst];
      [exact Same | apply handleSendMessage_appends].
  - destruct (sendButton_disabled st); cbn [fst];
      [exact Same | apply handleSendMessage_appends].
  - cbn [fst]. unfold handleSendMessage_settled.
    destruct (inflight st) as [|m rest]; [exact Same|].
    destruct s as [r|e].
    + eexists. fields. split; [reflexivity | cbn; lia].
    + fields.
      destruct (handleAPIError_messages now e m
                  (hideTypingIndicator (set_inflight rest st))) as (-> & _).
      eexists. fields. split; [reflexivity | cbn; lia].
  - unfold retryPrompt. destruct (timers st) as [|m rest]; [exact Same|].
    destruct answer; cbn [fst]; [|exact Same].
    destruct (handleSendMessage_appends now
                (handleInputChange (set_messageInput m (set_timers rest st))))
      as (added & E & L).
    exists added. split; [exact E | exact L].
  - unfold handleClearChat.
    destruct (Z.of_nat (List.length (messages st)) =? 0); [exact Same|].
    destruct answer; [congruence | exact Same].
  - exact Same.
  - cbn [fst]. destruct h as [|[|]]; exact Same.
  - exact Same.
Qed.

Lemma no_confirmed_clear_cons now ev rest :
  no_confirmed_clear ((now, ev) :: rest) = true ->
  ev <> ClickClear true /\ no_confirmed_clear rest = true.
Proof.
  destruct ev as [v| | |s|answer|[|]| |h|]; cbn [no_confirmed_clear];
    intros H; try discriminate; split; try assumption; discriminate.
Qed.

(** X12. The transcript is append-only. An event other than a confirmed clear
    leaves the stored messages as they are or adds one at the end; so as
    long as the user confirms no clear, the transcript at any moment is a
    prefix of the transcript at any later moment, and no entry is ever
    changed or removed. *)
Theorem transcript_append_only trace st :
  no_confirmed_clear trace = true ->
  exists added,
    messages (fst (run trace st)) = messages st ++ added
    /\ (List.length added <= List.length trace)%nat.
Proof.
  revert st. induction trace as [|[now ev] rest IH]; intros st H.
  - exists []. rewrite app_nil_r. auto.
  - apply no_confirmed_clear_cons in H as [Hev Hrest].
    rewrite run_cons. cbn [fst].
    destruct (step_appends now ev st Hev) as (a1 & E1 & L1).
    destruct (IH (fst (step now ev st)) Hrest) as (a2 & E2 & L2).
    exists (a1 ++ a2). rewrite E2, E1, <- app_assoc.
    split; [reflexivity|]. rewrite length_app. cbn [List.length]. lia.
Qed.

Lemma transcript_append_only_witness :
  exists added,
    messages (fst (run (at_noon send_and_time_out) (page_load (lit "s1"))))
    = messages (page_load (lit "s1")) ++ added
    /\ (List.length added <= 3)%nat.
Proof.
  apply (transcript_append_only (at_noon send_and_time_out)
           (page_load (lit "s1"))).
  reflexivity.
Defined.

(** *** Failures *)

Lemma lit_cons_nonempty c s : lit (String c s) <> [].
Proof. discriminate. Qed.

Lemma classify_text_nonempty e : fst (fst (classify e)) <> [].
Proof.
  destruct e as [status text code|]; [|discriminate].
  unfold classify.
  repeat (destruct (strict_eq_lit code _); [discriminate|]).
  cbn [fst]. destruct (Z.eqb_spec (strlen text) 0) as [_|H];
    [discriminate|].
  intros ->. apply H. reflexivity.
Qed.

(** X13. Every failure of a chat attempt is shown twice, with one and the same
    text, which is never empty: as an entry of role [error] at the end of
    the transcript and in the error banner, which is made visible. *)
Theorem failure_shows_entry_and_banner now e original st :
  let st' := handleAPIError now e original st in
  exists text,
    text <> []
    /\ messages st' = messages st
                      ++ [{| role := error; content := text;
                             timestamp := now; sources := [] |}]
    /\ errorMessage st' = text
    /\ errorDisplay_hidden st' = false.
Proof.
  cbv zeta. exists (fst (fst (classify e))).
  split; [apply classify_text_nonempty|].
  destruct (handleAPIError_messages now e original st) as (H1 & _ & H3 & H4).
  auto.
Qed.

(** X14. [sendToAPI] ends in one of two ways only: it returns the parsed body of
    a 200 response, or it throws an [APIError] whose message is not empty.
    An aborted request is a [timeout] with status 408; a failed connection
    and a 200 response that is not JSON are a [network] error with status
    0; an error response keeps the status and the code the server sent,
    with the server's text, or "HTTP" and the status when there is none. *)
Theorem sendToAPI_outcomes f :
  ((exists r, f = HttpOk (Some r) /\ sendToAPI f = Returned r)
   \/ (exists status text code,
         sendToAPI f = Threw (APIError status text code) /\ text <> []))
  /\ (f = FetchAborted ->
      exists text, sendToAPI f
                   = Threw (APIError 408 text (VString (lit "timeout"))))
  /\ (f = FetchFailed \/ f = HttpOk None ->
      exists text, sendToAPI f
                   = Threw (APIError 0 text (VString (lit "network"))))
  /\ (forall status err code,
        f = HttpError status err code ->
        exists text,
          sendToAPI f = Threw (APIError status text code)
          /\ (forall t, err = Some t -> t <> [] -> text = t)).
Proof.
  split; [|split; [|split]].
  - destruct f as [| |[r|]|status err code]; cbn [sendToAPI].
    + right. do 3 eexists. split; [reflexivity | discriminate].
    + right. do 3 eexists. split; [reflexivity | discriminate].
    + left. exists r. auto.
    + right. do 3 eexists. split; [reflexivity | discriminate].
    + right. do 3 eexists. split; [reflexivity|].
      destruct err as [t|]; [|discriminate].
      destruct (Z.eqb_spec (strlen t) 0) as [_|H]; [discriminate|].
      intros ->. apply H. reflexivity.
  - intros ->. eexists. reflexivity.
  - intros [-> | ->]; eexists; reflexivity.
  - intros status err code ->. eexists. split; [reflexivity|].
    intros t -> Ht.
    destruct (Z.eqb_spec (strlen t) 0) as [H|_]; [|reflexivity].
    apply strlen_zero in H. contradiction.
Qed.

Lemma sendToAPI_outcomes_witness :
  exists text, sendToAPI FetchAborted
               = Threw (APIError 408 text (VString (lit "timeout"))).
Proof.
  apply (proj1 (proj2 (sendToAPI_outcomes FetchAborted))). reflexivity.
Defined.

(** X15. A retry that the user confirms while another request is in flight is
    lost: the dialog is shown and its timer used up, the original message
    is put back into the textarea, but nothing is sent, nothing is added to
    the transcript, and no new prompt will follow. *)
Theorem retry_while_busy_is_dropped now m rest st :
  isLoading st = true -> timers st = m :: rest ->
  let st' := fst (retryPrompt now true st) in
  snd (retryPrompt now true st) = [ConfirmRetry (retryCount st) m]
  /\ timers st' = rest
  /\ messageInput st' = m
  /\ sendButton_disabled st' = true
  /\ inflight st' = inflight st
  /\ messages st' = messages st
  /\ retryCount st' = retryCount st.
Proof.
  intros Hl Ht. cbv zeta. unfold retryPrompt. rewrite Ht.
  cbn [fst snd]. unfold handleSendMessage. fields. rewrite Hl.
  rewrite orb_true_r. fields. rewrite Hl.
  rewrite !andb_false_r. repeat split.
Qed.

Lemma retry_while_busy_is_dropped_witness :
  inflight (fst (retryPrompt (lit "12:00") true busy_with_retry_pending))
  = [other_question]
  /\ messageInput (fst (retryPrompt (lit "12:00") true
                          busy_with_retry_pending)) = question.
Proof.
  destruct (retry_while_busy_is_dropped (lit "12:00") question []
              busy_with_retry_pending eq_refl eq_refl)
    as (_ & _ & H3 & _ & H5 & _).
  split; [rewrite H5; reflexivity | exact H3].
Defined.

(** *** The error banner *)

Lemma handleSendMessage_banner now st :
  errorDisplay_hidden (handleSendMessage now st) = errorDisplay_hidden st
  \/ errorDisplay_hidden (handleSendMessage now st) = true.
Proof.
  unfold handleSendMessage.
  destruct ((strlen (trim (messageInput st)) =? 0) || isLoading st);
    [left | right]; reflexivity.
Qed.

(** X16. Once shown, the error banner stays until the user acts: only
    dismissing it, confirming a clear, or submitting a message (by click,
    by Enter, or by confirming a retry) can hide it. A health check that
    succeeds, typing, and a request that settles never hide it; in
    particular the "You are offline" banner outlives the return of the
    connection. *)
Theorem banner_hidden_only_by_user now ev st :
  errorDisplay_hidden st = false ->
  errorDisplay_hidden (fst (step now ev st)) = true ->
  ev = DismissError \/ ev = ClickClear true \/ ev = ClickSend
  \/ ev = KeyEnter \/ ev = RetryTimer true.
Proof.
  intros Hv Hh.
  destruct ev as [v| | |s|[|]|[|]| |h|]; auto 6; exfalso; revert Hh;
    cbn [step fst].
  - fields. congruence.
  - unfold handleSendMessage_settled.
    destruct (inflight st) as [|m rest]; [congruence|].
    destruct s as [r|e]; fields; [congruence|].
    destruct (handleAPIError_messages now e m
                (hideTypingIndicator (set_inflight rest st)))
      as (_ & _ & _ & ->).
    discriminate.
  - unfold retryPrompt. destruct (timers st); cbn [fst]; fields; congruence.
  - unfold handleClearChat.
    destruct (Z.of_nat (List.length (messages st)) =? 0); cbn [fst];
      congruence.
  - destruct h as [|[|]]; cbn [checkBackendHealth]; fields; congruence.
  - unfold handleOffline. fields. discriminate.
Qed.

Lemma banner_hidden_only_by_user_witness :
  let offline := fst (step (lit "12:00") Offline (page_load (lit "s1"))) in
  errorDisplay_hidden offline = false
  /\ errorDisplay_hidden
       (fst (step (lit "12:01") (HealthSettled (HealthResponded true))
               offline)) = false
  /\ (DismissError = DismissError \/ DismissError = ClickClear true
      \/ DismissError = ClickSend \/ DismissError = KeyEnter
      \/ DismissError = RetryTimer true).
Proof.
  cbv zeta. split; [reflexivity|]. split; [reflexivity|].
  apply (banner_hidden_only_by_user (lit "12:02") DismissError
           (fst (step (lit "12:00") Offline (page_load (lit "s1"))))
           eq_refl eq_refl).
Defined.

End PageFacts.

(* ================================================================== *)
(** ** The page and the relay together                                *)
(* ================================================================== *)

Module WireFacts.
Import Client Page Relay.

Lemma post_chat_sendable env create session m :
  sendable m ->
  post_chat env create session m
  = receive
      (if Server.openai env then
         match create m with
         | Server.Reply text =>
             {| Server.status := 200;
                Server.body :=
                  Server.chat_reply env text
                    (or_else (VString session) Server.anonymous) |}
         | Server.Throws e => Server.chat_catch env e
         end
       else {| Server.status := 500;
               Server.body := Server.not_configured_error |}).
Proof.
  intros (H1 & H2 & H3). unfold post_chat.
  rewrite ServerFacts.chat_by_cases.
  cbn [Server.message Server.sessionId Server.text_of to_string_throws].
  rewrite ServerFacts.string_passes_validation;
    rewrite ?H3; try assumption.
  rewrite ServerFacts.json_value_or_else_string.
  reflexivity.
Qed.

(** X17. A reply of the downstream endpoint reaches the transcript unchanged.
    When the page has a sendable message in flight, the relay is configured
    and the endpoint answers it, [sendToAPI] returns that very text with no
    sources; the page adds it at the end of the transcript as the
    assistant's message, resets the retry counter, and is idle again. *)
Theorem reply_reaches_transcript env create session m text now st :
  sendable m -> Server.openai env = true ->
  create m = Server.Reply text -> inflight st = [m] ->
  option_map sendToAPI (post_chat env create session m)
  = Some (Returned {| reply := text; reply_sources := [] |})
  /\ let st' := handleSendMessage_settled now
                  (Returned {| reply := text; reply_sources := [] |}) st in
     messages st' = messages st
                    ++ [{| role := assistant; content := text;
                           timestamp := now; sources := [] |}]
     /\ retryCount st' = 0
     /\ isLoading st' = false
     /\ inflight st' = []
     /\ typingIndicator_hidden st' = true.
Proof.
  intros Hm Hc Hr Hi.
  split.
  { rewrite (post_chat_sendable env create session m Hm), Hc, Hr.
    unfold or_else. destruct (truthy (VString session)); reflexivity. }
  cbv zeta. unfold handleSendMessage_settled. rewrite Hi.
  ClientFacts.fields. repeat split.
Qed.

Lemma reply_reaches_transcript_witness :
  option_map sendToAPI
    (post_chat Server.env_configured Server.always_replies
       (lit "s1") question)
  = Some (Returned {| reply := lit "Here are the current data plans.";
                      reply_sources := [] |}).
Proof.
  apply (reply_reaches_transcript Server.env_configured
           Server.always_replies (lit "s1") question
           (lit "Here are the current data plans.") (lit "12:00")
           (fst (run (at_noon [Input question; ClickSend])
                     (page_load (lit "s1"))))).
  - repeat split; vm_compute; congruence.
  - reflexivity.
  - reflexivity.
  - reflexivity.
Defined.

(** X18. Which failures of the relay make the page offer a retry, and what
    the page shows for them. For a sendable message: a missing credential
    is shown with the relay's own text and is retried; of the downstream
    faults, [rate_limit_exceeded] and the unmapped ones are retried, while
    [insufficient_quota], [invalid_api_key] and [context_length_exceeded]
    are not. A request the relay turns down in validation is shown with
    the relay's text, is never retried, and does not touch the connection
    indicator. *)
Theorem relay_failures_and_retry env create session m :
  sendable m ->
  (Server.openai env = false ->
   option_map sendToAPI (post_chat env create session m)
   = Some (Threw (APIError 500
                    (lit "OpenAI API is not configured. Please check your API key.")
                    VUndefined))
   /\ classify (APIError 500
                  (lit "OpenAI API is not configured. Please check your API key.")
                  VUndefined)
      = (lit "OpenAI API is not configured. Please check your API key.",
         true, false))
  /\ (Server.openai env = true ->
      forall e, create m = Server.Throws e ->
      exists status text code,
        option_map sendToAPI (post_chat env create session m)
        = Some (Threw (APIError status text code))
        /\ status = Server.status (Server.chat_catch env e)
        /\ canRetry (APIError status text code)
           = (strict_eq_lit (Server.err_code e) "rate_limit_exceeded"
              || negb (is_mapped (Server.err_code e))))
  /\ (forall req,
        passes_validation (Server.message req) = false ->
        exists text,
          option_map sendToAPI (receive (Server.chat env create req))
          = Some (Threw (APIError 400 text VUndefined))
          /\ get "error" (Server.body (Server.chat env create req))
             = Some (VString text)
          /\ classify (APIError 400 text VUndefined) = (text, false, false)
          /\ canRetry (APIError 400 text VUndefined) = false).
Proof.
  intros Hm. split; [|split].
  - intros Hc. rewrite (post_chat_sendable env create session m Hm), Hc.
    split; reflexivity.
  - intros Hc e He.
    rewrite (post_chat_sendable env create session m Hm), Hc, He.
    destruct e as [code msg]. cbn [Server.err_code].
    unfold Server.chat_catch, is_mapped, mapped_codes.
    cbn [existsb Server.err_code Server.err_message].
    destruct (strict_eq_lit code "insufficient_quota") eqn:E1.
    { apply strict_eq_lit_eq in E1. subst code.
      do 3 eexists. repeat split; reflexivity. }
    destruct (strict_eq_lit code "invalid_api_key") eqn:E2.
    { apply strict_eq_lit_eq in E2. subst code.
      do 3 eexists. repeat split; reflexivity. }
    destruct (strict_eq_lit code "rate_limit_exceeded") eqn:E3.
    { apply strict_eq_lit_eq in E3. subst code.
      do 3 eexists. repeat split; reflexivity. }
    destruct (strict_eq_lit code "context_length_exceeded") eqn:E4.
    { apply strict_eq_lit_eq in E4. subst code.
      do 3 eexists. repeat split; reflexivity. }
    destruct (strict_eq_lit (Server.env_value (Server.NODE_ENV env))
                "development");
      do 3 eexists; repeat split; reflexivity.
  - intros req Hv. rewrite ServerFacts.chat_by_cases, Hv.
    destruct (negb (truthy (Server.message req))
              || negb (is_string (Server.message req))
              || (strlen (trim (Server.text_of (Server.message req))) =? 0));
      eexists; repeat split; reflexivity.
Qed.

Lemma relay_failures_and_retry_witness :
  option_map sendToAPI
    (post_chat Server.env_unconfigured Server.always_replies
       (lit "s1") question)
  = Some (Threw (APIError 500
                   (lit "OpenAI API is not configured. Please check your API key.")
                   VUndefined)).
Proof.
  apply (proj1 (relay_failures_and_retry Server.env_unconfigured
                  Server.always_replies (lit "s1") question
                  ltac:(repeat split; vm_compute; congruence))).
  reflexivity.
Defined.

End WireFacts.
